(** * mapbox-utils: the [upload] command

    A shallow embedding of [src/commands/upload.ts].  The command reads a
    file, asks Mapbox for temporary S3 credentials, writes the file to S3,
    asks Mapbox to process the object and, with [--wait], polls the job.

    The asynchronous code is embedded in a small monad [Async]: a
    computation yields the list of interactions it had with the outside
    (file system, HTTP, S3, timer, failure reports) together with the way the
    promise it stands for ends.  The outside is a [World]: a record of the
    answers the file system, the two Mapbox POST endpoints, the S3 client and
    the status endpoint give.

    A run may end in four ways ([completion]): [upload] returns, an
    exception is thrown where a [catch] sees it, an exception is thrown in a
    callback that the host runs (no [catch] of the command is on the stack),
    or the command awaits an answer that never comes.

    The requests go through axios with its default settings: an answer of
    the server whose status is outside 200-299 never reaches the command as
    a response, axios turns it into a rejection ([settle]).

    The [ora] spinner calls [start], [succeed] and the [text] assignment only
    draw on the terminal and are left out; [fail] and [console.error], which
    report a failure, are kept as events. *)

From Stdlib Require Import String List ZArith QArith Lia Bool DecimalString.
From Stdlib Require Import Strings.Byte Strings.Ascii.
Import ListNotations.

Local Open Scope string_scope.
Local Open Scope list_scope.
Local Open Scope Z_scope.

(** ** JavaScript values used by the command *)

Module Js.

(** A thrown value: [Error(message)], or the error object of a library.
    The command reads nothing but its [message]. *)
Record Error : Type := mkError { message : string }.

(** [number]: a double.  A finite double is a rational number, and [<] on
    finite doubles is the order of the rationals. *)
Inductive number : Type :=
| NaN
| PosInfinity
| NegInfinity
| Finite (q : Q).

(** [a < b] on numbers: false as soon as one side is [NaN]. *)
Definition lt (a b : number) : bool :=
  match a, b with
  | NaN, _ | _, NaN => false
  | PosInfinity, _ => false
  | _, NegInfinity => false
  | NegInfinity, _ => true
  | Finite _, PosInfinity => true
  | Finite x, Finite y => negb (Qle_bool y x)
  end.

(** [a >= b] on numbers. *)
Definition ge (a b : number) : bool :=
  match a, b with
  | NaN, _ | _, NaN => false
  | PosInfinity, _ => true
  | _, NegInfinity => true
  | NegInfinity, _ => false
  | Finite _, PosInfinity => false
  | Finite x, Finite y => Qle_bool y x
  end.

(** Truthiness of a [string | null]: [null] and the empty string are falsy. *)
Definition truthy (s : option string) : bool :=
  match s with
  | None => false
  | Some EmptyString => false
  | Some (String _ _) => true
  end.

(** A number inside a template literal; HTTP statuses are integers. *)
Definition show (n : Z) : string := NilZero.string_of_int (Z.to_int n).

End Js.

Import Js.

(** ** The data of the command (the [type] declarations of upload.ts) *)

Record Credentials : Type := mkCredentials {
  bucket : string;
  key : string;
  accessKeyId : string;
  secretAccessKey : string;
  sessionToken : string;
  cred_url : string
}.

Record Upload : Type := mkUpload {
  url : string;
  tileset : string;
  name : string
}.

(** [UploadProcessing] and [ProcessStatus] have the same fields.  [error] is
    [string | null]; [progress] is declared a [number], and is [None] when the
    response carries no such field ([undefined]). *)
Record ProcessStatus : Type := mkProcessStatus {
  complete : bool;
  ps_tileset : string;
  error : option string;
  id : string;
  ps_name : string;
  modified : string;
  created : string;
  owner : string;
  progress : option number
}.

Definition UploadProcessing : Type := ProcessStatus.

Definition Buffer : Type := list byte.

(** ** The outside *)

(** What a request to Mapbox comes to: the answer of the server, or an
    error of [axios] for a request that got no answer. *)
Record response (A : Type) : Type := mkResponse {
  status : Z;
  statusText : string;
  data : A
}.

Arguments mkResponse {A} _ _ _.
Arguments status {A} _.
Arguments statusText {A} _.
Arguments data {A} _.

Inductive http (A : Type) : Type :=
| Responds (r : response A)   (* the server answers, with any status *)
| Fails (e : Error).          (* no answer: axios rejects with [e] *)

Arguments Responds {A} _.
Arguments Fails {A} _.

(** The options of [new AWS.S3] and the parameters of [putObject]. *)
Record S3Options : Type := mkS3Options {
  o_accessKeyId : string;
  o_secretAccessKey : string;
  o_region : string;
  o_sessionToken : string
}.

Record PutObjectRequest : Type := mkPutObjectRequest {
  Body : Buffer;
  Bucket : string;
  Key : string
}.

Record PutObjectOutput : Type := mkPutObjectOutput { ETag : string }.

(** [putObject] reports through a node-style callback [(err, data)].  The
    client runs the callback either before [putObject] returns, or later from
    the event loop, once the request to the storage service has ended. *)
Inductive frame : Type :=
| InCall
| FromEventLoop.

Record s3_callback : Type := mkS3Callback {
  cb_frame : frame;
  cb_err : option Error;
  cb_data : PutObjectOutput
}.

Definition headers : Type := list (string * string).

Record World : Type := mkWorld {
  w_readFileSync : string -> Error + Buffer;
  w_post_credentials : string -> http Credentials;
  w_putObject : S3Options -> PutObjectRequest -> s3_callback;
  w_post_upload : string -> Upload -> headers -> http UploadProcessing;
  (** the answers to the successive status queries; a query past the end of
      the list is never answered *)
  w_get_status : list (http ProcessStatus)
}.

(** ** Interactions and the [Async] monad *)

Inductive event : Type :=
| ReadFile (path : string)
| HttpPost (target : string) (body : option Upload) (hs : headers)
| HttpGet (target : string) (hs : headers)
| PutObject (opts : S3Options) (req : PutObjectRequest)
| Delay (ms : Z)
| SpinnerFail (text : string)
| ConsoleError (text : string).

(** How an awaited computation ends. *)
Inductive completion (A : Type) : Type :=
| Fulfils (a : A)       (* the promise is fulfilled: the function returned *)
| Rejects (e : Error)   (* the promise is rejected: a [throw] a [catch] sees *)
| Escapes (e : Error)   (* thrown in a callback the host runs: no [catch] of
                           the command sees it, its promise stays pending *)
| Hangs.                (* awaits a promise that is never settled *)

Arguments Fulfils {A} _.
Arguments Rejects {A} _.
Arguments Escapes {A} _.
Arguments Hangs {A}.

Definition Async (A : Type) : Type := (list event * completion A)%type.

Definition ret {A} (a : A) : Async A := ([], Fulfils a).

Definition throw {A} (e : Error) : Async A := ([], Rejects e).

Definition emit (ev : event) : Async unit := ([ev], Fulfils tt).

Definition bind {A B} (m : Async A) (k : A -> Async B) : Async B :=
  match m with
  | (t, Fulfils a) => let (t', c) := k a in (t ++ t', c)
  | (t, Rejects e) => (t, Rejects e)
  | (t, Escapes e) => (t, Escapes e)
  | (t, Hangs) => (t, Hangs)
  end.

(** [try { m } catch (ex) { h ex }] *)
Definition try_catch {A} (m : Async A) (h : Error -> Async A) : Async A :=
  match m with
  | (t, Rejects e) => let (t', c) := h e in (t ++ t', c)
  | other => other
  end.

Declare Scope async_scope.
Delimit Scope async_scope with async.

Notation "x <- m ;; k" := (bind m (fun x => k))
  (at level 61, m at next level, right associativity) : async_scope.
Notation "m ;;; k" := (bind m (fun _ => k))
  (at level 61, right associativity) : async_scope.

Local Open Scope async_scope.

Definition trace {A} (m : Async A) : list event := fst m.

Definition outcome {A} (m : Async A) : completion A := snd m.

Definition hang {A} : Async A := ([], Hangs).

(** A [throw] in a callback that the host runs from its event loop. *)
Definition escape {A} (e : Error) : Async A := ([], Escapes e).

(** ** upload.ts *)

(** [const delay = (ms) => new Promise(resolve => setTimeout(resolve, ms))] *)
Definition delay (ms : Z) : Async unit := emit (Delay ms).

Definition credentialsUrl (username token : string) : string :=
  ("https://api.mapbox.com/uploads/v1/" ++ username
     ++ "/credentials?access_token=" ++ token)%string.

Definition uploadUrl (username token : string) : string :=
  ("https://api.mapbox.com/uploads/v1/" ++ username
     ++ "?access_token=" ++ token)%string.

Definition fileUrl (bucket key : string) : string :=
  ("http://" ++ bucket ++ ".s3.amazonaws.com/" ++ key)%string.

Definition uploadStatusUrl (username uploadId token : string) : string :=
  ("https://api.mapbox.com/uploads/v1/" ++ username ++ "/" ++ uploadId
     ++ "?access_token=" ++ token)%string.

Definition json_headers : headers :=
  [("Content-Type", "application/json"); ("Cache-Control", "no-cache")].

(** A [string | null] inside a template literal. *)
Definition show_nullable (s : option string) : string :=
  match s with
  | Some s => s
  | None => "null"
  end.

(** [while (progress !== undefined && progress < 1)] *)
Definition in_progress (progress : option number) : bool :=
  match progress with
  | None => false
  | Some p => Js.lt p (Finite 1)
  end.

(** The default [validateStatus] of axios: a status from 200 to 299. *)
Definition validateStatus (status : Z) : bool :=
  (200 <=? status) && (status <? 300).

(** How axios settles the promise of a request.  [Responds r] is the answer
    of the server and [Fails e] a request that got none.  An answer whose
    status [validateStatus] refuses rejects the promise with the error
    "Request failed with status code", a space and the status; the command
    sees a response only when its status is from 200 to 299. *)
Definition settle {A} (answer : http A) : Async (response A) :=
  match answer with
  | Responds r =>
      if validateStatus (status r) then ret r
      else throw (mkError ("Request failed with status code "
                             ++ show (status r))%string)
  | Fails e => throw e
  end.

(** The [catch] clause of [upload] (lines 118-121). *)
Definition handler (ex : Error) : Async Z :=
  emit (ConsoleError (message ex)) ;;; ret (-1).

Section Command.

Variable w : World.

(** [fs.readFileSync(source)] *)
Definition readFileSync (source : string) : Async Buffer :=
  emit (ReadFile source) ;;;
  match w_readFileSync w source with
  | inl e => throw e
  | inr file => ret file
  end.

(** [await axios.post(target, body, {headers})].  The command passes no
    [validateStatus]: axios settles the promise by its default. *)
Definition axios_post {A} (target : string) (body : option Upload)
    (hs : headers) (answer : http A) : Async (response A) :=
  emit (HttpPost target body hs) ;;;
  settle answer.

(** [await axios.get(target, {headers})]; [answer] is [None] when the service
    never answers. *)
Definition axios_get {A} (target : string) (hs : headers)
    (answer : option (http A)) : Async (response A) :=
  emit (HttpGet target hs) ;;;
  match answer with
  | Some a => settle a
  | None => hang
  end.

(** [await new Promise(resolve => s3.putObject(req, (err, data) =>
       { if (err) throw err; resolve(data); }))].
    The promise has no [reject].  A [throw] of the callback while the
    executor is still running leaves the executor, and the constructor turns
    it into a rejection; a [throw] of the callback run from the event loop
    leaves the callback into the host, and [resolve] is never called. *)
Definition putObject_promise (s3 : S3Options) (req : PutObjectRequest)
    : Async PutObjectOutput :=
  emit (PutObject s3 req) ;;;
  let cb := w_putObject w s3 req in
  match cb_err cb with
  | Some err =>
      match cb_frame cb with
      | InCall => throw err
      | FromEventLoop => escape err
      end
  | None => ret (cb_data cb)
  end.

Definition uploadToS3 (credentials : Credentials) (data : Buffer)
    : Async unit :=
  let s3 := {| o_accessKeyId := accessKeyId credentials;
               o_secretAccessKey := secretAccessKey credentials;
               o_region := "us-east-1";
               o_sessionToken := sessionToken credentials |} in
  output <- putObject_promise s3
              {| Body := data;
                 Bucket := bucket credentials;
                 Key := key credentials |} ;;
  ret tt.

Definition fetchCredentials (username token : string) : Async Credentials :=
  let url := credentialsUrl username token in
  credentials <- axios_post url None [] (w_post_credentials w url) ;;
  if negb (status credentials =? 200) then
    throw (mkError ("Could not fetch upload credentials, status: "
                      ++ show (status credentials) ++ ": "
                      ++ statusText credentials ++ ".")%string)
  else ret (data credentials).

(** The body [startUpload] builds (the [upload] constant of the source). *)
Definition upload_request (username slug name bucket key : string) : Upload :=
  {| url := fileUrl bucket key;
     tileset := (username ++ "." ++ slug)%string;
     name := name |}.

Definition startUpload (username slug name bucket key token : string)
    : Async UploadProcessing :=
  let upload := upload_request username slug name bucket key in
  let target := uploadUrl username token in
  credentials <- axios_post target (Some upload) json_headers
                   (w_post_upload w target upload json_headers) ;;
  if negb (status credentials =? 201) then
    throw (mkError ("Could not start upload processing: "
                      ++ show (status credentials) ++ ": "
                      ++ statusText credentials ++ ".")%string)
  else ret (data credentials).

Definition getUploadStatus (username uploadId token : string)
    (answer : option (http ProcessStatus)) : Async ProcessStatus :=
  uploadStatus <- axios_get (uploadStatusUrl username uploadId token)
                    json_headers answer ;;
  if negb (status uploadStatus =? 200) then
    throw (mkError ("Could processing status: "
                      ++ show (status uploadStatus) ++ ": "
                      ++ statusText uploadStatus ++ ".")%string)
  else ret (data uploadStatus).

(** One turn of the [while] loop of [upload] (lines 99-107); [again] is the
    rest of the loop, entered with the new value of [progress]. *)
Definition poll_once (name tileset username id token : string)
    (answer : option (http ProcessStatus))
    (again : option number -> Async Z) : Async Z :=
  processStatus <- getUploadStatus username id token answer ;;
  if truthy (error processStatus) then
    let txt := ("Error occurred while processing " ++ name ++ " (" ++ tileset
                  ++ "): " ++ show_nullable (error processStatus) ++ ".")%string in
    emit (SpinnerFail txt) ;;;
    ret (-1)
  else
    delay 1000 ;;;
    again (progress processStatus).

(** The [while] loop of [upload] with the [return 0] that follows it
    (lines 98-111), run against the answers the status endpoint gives. *)
Fixpoint poll (name tileset username id token : string)
    (answers : list (http ProcessStatus)) (progress : option number)
    : Async Z :=
  if in_progress progress then
    match answers with
    | [] => poll_once name tileset username id token None (fun _ => hang)
    | a :: rest =>
        poll_once name tileset username id token (Some a)
          (poll name tileset username id token rest)
    end
  else ret 0.

Definition upload (source name slug username token : string)
    (awaitProcessing : bool) : Async Z :=
  try_catch
    (file <- readFileSync source ;;
     credentials <- fetchCredentials username token ;;
     _ <- uploadToS3 credentials file ;;
     processing <- startUpload username slug name
                     (bucket credentials) (key credentials) token ;;
     let id := id processing in
     if awaitProcessing then
       poll name (ps_tileset processing) username id token
         (w_get_status w) (Some (Finite 0))
     else ret 0)
    handler.

End Command.

(** ** Observing a run *)

Definition is_status_query (ev : event) : bool :=
  match ev with
  | HttpGet _ _ => true
  | _ => false
  end.

Definition is_putObject (ev : event) : bool :=
  match ev with
  | PutObject _ _ => true
  | _ => false
  end.

(** The number of status queries of a run. *)
Definition status_queries (t : list event) : nat :=
  length (filter is_status_query t).

(** The number of [putObject] calls of a run. *)
Definition putObject_calls (t : list event) : nat :=
  length (filter is_putObject t).

(** The three stages that precede polling.  The credentials request is the
    POST without a body, the processing-start request the POST with one. *)
Inductive stage : Type :=
| CredentialFetch
| StorageUpload
| ProcessingStart.

Definition stage_of (ev : event) : list stage :=
  match ev with
  | HttpPost _ None _ => [CredentialFetch]
  | PutObject _ _ => [StorageUpload]
  | HttpPost _ (Some _) _ => [ProcessingStart]
  | _ => []
  end.

Definition stages_run (t : list event) : list stage := flat_map stage_of t.

(** An answer to a status query after which the loop goes on: status 200, a
    falsy [error], a [progress] that is a number below 1. *)
Definition keeps_polling (a : http ProcessStatus) : bool :=
  match a with
  | Responds r =>
      (status r =? 200) && negb (truthy (error (data r)))
        && in_progress (progress (data r))
  | Fails _ => false
  end.

(** The four stages before polling all succeed: the file is read, the
    credentials request is answered 200 with [creds], [putObject] reports no
    error, the processing-start request is answered 201 with [job]. *)
Definition reaches_polling (w : World) (source name slug username token : string)
    (creds : Credentials) (job : UploadProcessing) : Prop :=
  (exists file, w_readFileSync w source = inr file)
  /\ (exists txt, w_post_credentials w (credentialsUrl username token)
                  = Responds (mkResponse 200 txt creds))
  /\ (forall s3 req, cb_err (w_putObject w s3 req) = None)
  /\ (exists txt, w_post_upload w (uploadUrl username token)
                    (upload_request username slug name (bucket creds) (key creds))
                    json_headers
                  = Responds (mkResponse 201 txt job)).

(** The interactions of the four stages when they all succeed. *)
Definition stage_events (source name slug username token : string)
    (file : Buffer) (creds : Credentials) : list event :=
  [ ReadFile source;
    HttpPost (credentialsUrl username token) None [];
    PutObject {| o_accessKeyId := accessKeyId creds;
                 o_secretAccessKey := secretAccessKey creds;
                 o_region := "us-east-1";
                 o_sessionToken := sessionToken creds |}
              {| Body := file; Bucket := bucket creds; Key := key creds |};
    HttpPost (uploadUrl username token)
             (Some (upload_request username slug name (bucket creds) (key creds)))
             json_headers ].

(** The same world with other answers to the status queries. *)
Definition with_status (w : World) (answers : list (http ProcessStatus)) : World :=
  {| w_readFileSync := w_readFileSync w;
     w_post_credentials := w_post_credentials w;
     w_putObject := w_putObject w;
     w_post_upload := w_post_upload w;
     w_get_status := answers |}.

(** An answer with its [complete] field overwritten. *)
Definition set_complete (b : bool) (a : http ProcessStatus) : http ProcessStatus :=
  match a with
  | Responds r =>
      Responds (mkResponse (status r) (statusText r)
                  {| complete := b;
                     ps_tileset := ps_tileset (data r);
                     error := error (data r);
                     id := id (data r);
                     ps_name := ps_name (data r);
                     modified := modified (data r);
                     created := created (data r);
                     owner := owner (data r);
                     progress := progress (data r) |})
  | Fails e => Fails e
  end.

(** Two sequences of answers that differ in their [complete] fields at most:
    the same length, and equal answer by answer once [complete] is
    overwritten. *)
Definition same_but_complete (l1 l2 : list (http ProcessStatus)) : Prop :=
  map (set_complete false) l1 = map (set_complete false) l2.

(** ** Sample worlds *)

Module Sample.

Definition creds : Credentials :=
  {| bucket := "tilestream-tilesets-production";
     key := "_pending/abc/user";
     accessKeyId := "AKIA";
     secretAccessKey := "secret";
     sessionToken := "session";
     cred_url := "https://tilestream-tilesets-production.s3.amazonaws.com/_pending/abc/user" |}.

Definition job (e : option string) (p : option number) (c : bool) : ProcessStatus :=
  {| complete := c;
     ps_tileset := "user.roads";
     error := e;
     id := "cj1";
     ps_name := "Roads";
     modified := "2019-01-01T00:00:00.000Z";
     created := "2019-01-01T00:00:00.000Z";
     owner := "user";
     progress := p |}.

Definition ok (e : option string) (p : option number) : http ProcessStatus :=
  Responds (mkResponse 200 "OK" (job e p false)).

Definition file : Buffer := [x50; x4b].

(** A world in which every stage succeeds; [cb] is how [putObject] reports,
    [started] the status of the answer to the processing-start request. *)
Definition world (cb : s3_callback) (credentials_status started : Z)
    (answers : list (http ProcessStatus)) : World :=
  {| w_readFileSync := fun _ => inr file;
     w_post_credentials := fun _ => Responds (mkResponse credentials_status "text" creds);
     w_putObject := fun _ _ => cb;
     w_post_upload := fun _ _ _ => Responds (mkResponse started "text" (job None (Some (Finite 0)) false));
     w_get_status := answers |}.

Definition stored : s3_callback :=
  {| cb_frame := FromEventLoop; cb_err := None; cb_data := {| ETag := "etag" |} |}.

Definition denied (f : frame) : s3_callback :=
  {| cb_frame := f;
     cb_err := Some (mkError "Access Denied");
     cb_data := {| ETag := EmptyString |} |}.

Definition happy (answers : list (http ProcessStatus)) : World :=
  world stored 200 201 answers.

Definition run (w : World) (wait : bool) : Async Z :=
  upload w "roads.mbtiles" "Roads" "roads" "user" "tk" wait.

End Sample.


(** The value of [progress] once the loop has gone through the answers
    [pre], starting from [p]. *)
Definition progress_after (p : option number) (pre : list (http ProcessStatus))
    : option number :=
  fold_left (fun q a => match a with
                        | Responds r => progress (data r)
                        | Fails _ => q
                        end) pre p.

(** The interactions of the turns of the loop that go on: a query, then the
    delay. *)
Definition turns (username id token : string) (pre : list (http ProcessStatus))
    : list event :=
  flat_map (fun _ => [HttpGet (uploadStatusUrl username id token) json_headers;
                      Delay 1000]) pre.

(** ** Sample worlds in which a stage fails *)

Module Failing.

(** The file cannot be read. *)
Definition unreadable : World :=
  {| w_readFileSync := fun _ => inl (mkError "ENOENT: no such file or directory");
     w_post_credentials := w_post_credentials (Sample.happy []);
     w_putObject := w_putObject (Sample.happy []);
     w_post_upload := w_post_upload (Sample.happy []);
     w_get_status := [] |}.

(** [axios] rejects the credentials request. *)
Definition no_credentials : World :=
  {| w_readFileSync := w_readFileSync (Sample.happy []);
     w_post_credentials := fun _ => Fails (mkError "Request failed with status code 401");
     w_putObject := w_putObject (Sample.happy []);
     w_post_upload := w_post_upload (Sample.happy []);
     w_get_status := [] |}.

(** [axios] rejects the processing-start request. *)
Definition no_start : World :=
  {| w_readFileSync := w_readFileSync (Sample.happy []);
     w_post_credentials := w_post_credentials (Sample.happy []);
     w_putObject := w_putObject (Sample.happy []);
     w_post_upload := fun _ _ _ => Fails (mkError "Request failed with status code 422");
     w_get_status := [Sample.ok None (Some (Finite 1))] |}.

End Failing.

(** ** Further observations of a run *)

Definition is_delay (ev : event) : bool :=
  match ev with
  | Delay _ => true
  | _ => false
  end.

(** The number of waits of a run. *)
Definition delays (t : list event) : nat := length (filter is_delay t).

(** A failure report: [processSpinner.fail] or [console.error]. *)
Definition is_report (ev : event) : bool :=
  match ev with
  | SpinnerFail _ | ConsoleError _ => true
  | _ => false
  end.

(** The number of failure reports of a run. *)
Definition reports (t : list event) : nat := length (filter is_report t).

(** * Properties *)

(** The template literals stay folded during simplification. *)
Arguments credentialsUrl : simpl never.
Arguments uploadUrl : simpl never.
Arguments uploadStatusUrl : simpl never.
Arguments fileUrl : simpl never.
Arguments upload_request : simpl never.
Arguments show : simpl never.

(** ** The monad *)

Lemma bind_emit {B} (ev : event) (k : unit -> Async B) :
  bind (emit ev) k = (ev :: fst (k tt), snd (k tt)).
Proof. unfold bind, emit. destruct (k tt); reflexivity. Qed.

(** ** The requests *)

Lemma validateStatus_200 {A} (r : response A) :
  (status r =? 200) = true -> validateStatus (status r) = true.
Proof. intros H. apply Z.eqb_eq in H. rewrite H. reflexivity. Qed.

Lemma validateStatus_201 {A} (r : response A) :
  (status r =? 201) = true -> validateStatus (status r) = true.
Proof. intros H. apply Z.eqb_eq in H. rewrite H. reflexivity. Qed.

(** A status query that is answered: the data of the answer when its status
    is 200, else the error of axios (outside 200-299) or of the command. *)
Lemma getUploadStatus_answered username uploadId token r :
  getUploadStatus username uploadId token (Some (Responds r))
  = ([HttpGet (uploadStatusUrl username uploadId token) json_headers],
     if status r =? 200 then Fulfils (data r)
     else Rejects
            (mkError (if validateStatus (status r)
                      then ("Could processing status: " ++ show (status r)
                              ++ ": " ++ statusText r ++ ".")%string
                      else ("Request failed with status code "
                              ++ show (status r))%string))).
Proof.
  unfold getUploadStatus, axios_get, settle. rewrite bind_emit.
  destruct (status r =? 200) eqn:Hs.
  - rewrite (validateStatus_200 r Hs). cbn. rewrite Hs. reflexivity.
  - destruct (validateStatus (status r)); cbn; [rewrite Hs|]; reflexivity.
Qed.

Lemma getUploadStatus_rejected username uploadId token e :
  getUploadStatus username uploadId token (Some (Fails e))
  = ([HttpGet (uploadStatusUrl username uploadId token) json_headers],
     Rejects e).
Proof. reflexivity. Qed.

Lemma getUploadStatus_unanswered username uploadId token :
  getUploadStatus username uploadId token None
  = ([HttpGet (uploadStatusUrl username uploadId token) json_headers], Hangs).
Proof. reflexivity. Qed.

Lemma pair_eta {A B} (p : A * B) : (fst p, snd p) = p.
Proof. destruct p; reflexivity. Qed.

(** ** Counting *)

Lemma status_queries_app (t1 t2 : list event) :
  status_queries (t1 ++ t2) = (status_queries t1 + status_queries t2)%nat.
Proof. unfold status_queries. rewrite filter_app, length_app. reflexivity. Qed.

Lemma status_queries_turns (username id token : string) pre :
  status_queries (turns username id token pre) = length pre.
Proof.
  induction pre as [|a pre IH]; [reflexivity|].
  unfold turns in *. cbn [flat_map]. rewrite status_queries_app, IH. reflexivity.
Qed.

(** ** The polling loop *)

Section Poll.

Variables name tileset username id token : string.

Local Abbreviation loop := (poll name tileset username id token).
Local Abbreviation query := (HttpGet (uploadStatusUrl username id token) json_headers).

(** The loop is not entered, and succeeds, when [progress] is not a number
    below 1. *)
Lemma poll_exit answers p :
  in_progress p = false -> loop answers p = ([], Fulfils 0).
Proof. intros H. destruct answers; cbn; rewrite H; reflexivity. Qed.

(** One turn on an answer that keeps the loop going. *)
Lemma poll_turn a rest p :
  in_progress p = true -> keeps_polling a = true ->
  loop (a :: rest) p
  = (query :: Delay 1000 :: fst (loop rest (progress_after p [a])),
     snd (loop rest (progress_after p [a])))
  /\ in_progress (progress_after p [a]) = true.
Proof.
  intros Hp Ha. destruct a as [r|e]; [|discriminate].
  cbn in Ha. apply andb_prop in Ha as [Ha Hq]. apply andb_prop in Ha as [Hs He].
  apply negb_true_iff in He. split; [|exact Hq].
  cbn [poll]. rewrite Hp.
  unfold poll_once. rewrite getUploadStatus_answered, Hs. cbn.
  rewrite He. cbn.
  destruct (poll name tileset username id token rest (progress (data r)));
    reflexivity.
Qed.

(** The loop goes through every prefix of answers that keep it going. *)
Lemma poll_prefix pre : forall rest p,
  in_progress p = true -> forallb keeps_polling pre = true ->
  loop (pre ++ rest) p
  = (turns username id token pre ++ fst (loop rest (progress_after p pre)),
     snd (loop rest (progress_after p pre)))
  /\ in_progress (progress_after p pre) = true.
Proof.
  induction pre as [|a pre IH]; intros rest p Hp Hall.
  - cbn. rewrite pair_eta. auto.
  - cbn [forallb] in Hall. apply andb_prop in Hall as [Ha Hall].
    destruct (poll_turn a (pre ++ rest) p Hp Ha) as [E Hq].
    destruct (IH rest _ Hq Hall) as [E' Hq'].
    cbn [app]. rewrite E, E'. cbn. split; [reflexivity | exact Hq'].
Qed.

(** An answer with a truthy [error] ends the run in failure after this one
    query, whatever its status. *)
Lemma poll_error r rest p :
  in_progress p = true -> truthy (error (data r)) = true ->
  exists report,
    (exists text, report = SpinnerFail text \/ report = ConsoleError text)
    /\ try_catch (loop (Responds r :: rest) p) handler
       = ([query; report], Fulfils (-1)).
Proof.
  intros Hp He. cbn [poll]. rewrite Hp.
  unfold poll_once. rewrite getUploadStatus_answered.
  destruct (status r =? 200); cbn.
  - rewrite He. cbn. eexists; split; [eexists; left|]; reflexivity.
  - eexists; split; [eexists; right|]; reflexivity.
Qed.

(** An answer 200 with a falsy [error] and a [progress] that does not keep
    the loop going ends the run in success, after the delay. *)
Lemma poll_done r rest p :
  in_progress p = true -> status r = 200 ->
  truthy (error (data r)) = false -> in_progress (progress (data r)) = false ->
  loop (Responds r :: rest) p = ([query; Delay 1000], Fulfils 0).
Proof.
  intros Hp Hs He Hq. cbn [poll]. rewrite Hp.
  unfold poll_once. rewrite getUploadStatus_answered, Hs. cbn.
  rewrite He. cbn.
  rewrite (poll_exit rest _ Hq). reflexivity.
Qed.

End Poll.

(** ** The stages before polling *)

(** When the four stages succeed, the run is their interactions followed by
    the polling (or by nothing, without [--wait]), under the [catch]. *)
Lemma upload_started w source name slug username token creds job (wait : bool) :
  reaches_polling w source name slug username token creds job ->
  exists file,
    let rest :=
      try_catch
        (if wait
         then poll name (ps_tileset job) username (id job) token
                (w_get_status w) (Some (Finite 0))
         else ret 0) handler in
    upload w source name slug username token wait
    = (stage_events source name slug username token file creds ++ fst rest,
       snd rest).
Proof.
  intros [[file Hf] [[t1 Hc] [Hs [t2 Hj]]]]. exists file. cbn zeta.
  unfold upload, readFileSync, fetchCredentials, uploadToS3, putObject_promise,
    startUpload, axios_post.
  rewrite bind_emit, Hf. cbn. rewrite Hc. cbn. rewrite Hs. cbn. rewrite Hj. cbn.
  unfold handler.
  destruct (if wait then _ else _) as [t [a|e|e|]]; reflexivity.
Qed.

Lemma status_queries_stage_events source name slug username token file creds :
  status_queries (stage_events source name slug username token file creds) = 0%nat.
Proof. reflexivity. Qed.

Lemma try_catch_prefix {A} (t : list event) (m : Async A) h :
  try_catch (t ++ fst m, snd m) h
  = (t ++ fst (try_catch m h), snd (try_catch m h)).
Proof.
  destruct m as [t' [a|e|e|]]; cbn; try reflexivity.
  destruct (h e) as [t'' c]. cbn. rewrite app_assoc. reflexivity.
Qed.

(** With [--wait], once the stages have succeeded, the run goes through every
    prefix of answers that keep the loop going. *)
Lemma upload_polls w source name slug username token creds job pre rest :
  reaches_polling w source name slug username token creds job ->
  w_get_status w = pre ++ rest ->
  forallb keeps_polling pre = true ->
  exists file p,
    in_progress p = true
    /\ let m := try_catch (poll name (ps_tileset job) username (id job) token
                             rest p) handler in
       upload w source name slug username token true
       = (stage_events source name slug username token file creds
            ++ turns username (id job) token pre ++ fst m,
          snd m).
Proof.
  intros Hr Hw Hpre.
  destruct (upload_started _ _ _ _ _ _ _ _ true Hr) as [file E].
  exists file, (progress_after (Some (Finite 0)) pre). cbn zeta in *.
  destruct (poll_prefix name (ps_tileset job) username (id job) token pre rest
              (Some (Finite 0)) eq_refl Hpre) as [E' Hp].
  split; [exact Hp|].
  rewrite E, Hw, E', try_catch_prefix. reflexivity.
Qed.

(** The run that ends in success on the answer that follows [pre]. *)
Lemma upload_poll_done w source name slug username token creds job pre r rest :
  reaches_polling w source name slug username token creds job ->
  w_get_status w = pre ++ Responds r :: rest ->
  forallb keeps_polling pre = true ->
  status r = 200 ->
  truthy (error (data r)) = false ->
  in_progress (progress (data r)) = false ->
  exists file,
    upload w source name slug username token true
    = (stage_events source name slug username token file creds
         ++ turns username (id job) token pre
         ++ [HttpGet (uploadStatusUrl username (id job) token) json_headers;
             Delay 1000],
       Fulfils 0).
Proof.
  intros Hr Hw Hpre Hs He Hq.
  destruct (upload_polls _ _ _ _ _ _ _ _ _ _ Hr Hw Hpre) as (file & p & Hp & E).
  exists file. cbn zeta in E. rewrite E.
  rewrite (poll_done _ _ _ _ _ r rest p Hp Hs He Hq). reflexivity.
Qed.

Lemma status_queries_run source name slug username token file creds i pre t :
  status_queries (stage_events source name slug username token file creds
                    ++ turns username i token pre ++ t)
  = (length pre + status_queries t)%nat.
Proof.
  rewrite !status_queries_app, status_queries_stage_events,
    status_queries_turns. reflexivity.
Qed.

Lemma ge_not_lt (a b : number) : Js.ge a b = true -> Js.lt a b = false.
Proof.
  destruct a, b; cbn; try congruence. intros H. rewrite H. reflexivity.
Qed.

(** ** The claims about polling *)

(** C1 (as the code has it): an answer to a status query that carries a truthy
    [error] (a string that is not empty) ends the run in failure: [upload]
    returns -1, the query that got this answer is the last one, and nothing
    but the failure report follows it. *)
Theorem C1_truthy_error_fails
    w source name slug username token creds job pre r rest :
  reaches_polling w source name slug username token creds job ->
  w_get_status w = pre ++ Responds r :: rest ->
  forallb keeps_polling pre = true ->
  truthy (error (data r)) = true ->
  let run := upload w source name slug username token true in
  outcome run = Fulfils (-1)
  /\ status_queries (trace run) = S (length pre)
  /\ exists before report,
       trace run
       = before ++ [HttpGet (uploadStatusUrl username (id job) token) json_headers;
                    report]
       /\ is_status_query report = false.
Proof.
  intros Hr Hw Hpre He run.
  destruct (upload_polls _ _ _ _ _ _ _ _ _ _ Hr Hw Hpre) as (file & p & Hp & E).
  cbn zeta in E.
  destruct (poll_error name (ps_tileset job) username (id job) token r rest p Hp He)
    as (report & Hrep & E').
  subst run. rewrite E, E'. unfold outcome, trace. cbn [fst snd].
  split; [reflexivity|]. split.
  - rewrite status_queries_run. destruct Hrep as [x [-> | ->]]; cbn; lia.
  - exists (stage_events source name slug username token file creds
              ++ turns username (id job) token pre), report.
    split; [rewrite app_assoc; reflexivity|].
    destruct Hrep as [x [-> | ->]]; reflexivity.
Qed.

Lemma happy_reaches_polling answers :
  reaches_polling (Sample.happy answers) "roads.mbtiles" "Roads" "roads" "user" "tk"
    Sample.creds (Sample.job None (Some (Finite 0)) false).
Proof.
  split; [exists Sample.file; reflexivity|].
  split; [exists "text"; reflexivity|].
  split; [intros; reflexivity|].
  exists "text"; reflexivity.
Defined.

Lemma C1_truthy_error_fails_witness :
  let bad := mkResponse 200 "OK" (Sample.job (Some "bad file") (Some (Finite 0.5)) false) in
  let w := Sample.happy [Sample.ok None (Some (Finite 0.2)); Responds bad;
                         Sample.ok None (Some (Finite 1))] in
  let run := Sample.run w true in
  truthy (error (data bad)) = true
  /\ outcome run = Fulfils (-1)
  /\ status_queries (trace run) = 2%nat
  /\ exists before report,
       trace run
       = before ++ [HttpGet (uploadStatusUrl "user" "cj1" "tk") json_headers; report]
       /\ is_status_query report = false.
Proof.
  intros bad w run. split; [reflexivity|].
  apply (C1_truthy_error_fails w "roads.mbtiles" "Roads" "roads" "user" "tk"
           Sample.creds (Sample.job None (Some (Finite 0)) false)
           [Sample.ok None (Some (Finite 0.2))] bad
           [Sample.ok None (Some (Finite 1))]).
  - apply happy_reaches_polling.
  - reflexivity.
  - reflexivity.
  - reflexivity.
Defined.

(** C1 (as stated) fails: an answer whose [error] is the empty string carries
    an [error] that is not [null], yet the loop goes on, queries again and
    [upload] returns 0. *)
Lemma C1_empty_error_counterexample :
  let r := mkResponse 200 "OK"
             (Sample.job (Some EmptyString) (Some (Finite 0.5)) false) in
  let w := Sample.happy [Responds r; Sample.ok None (Some (Finite 1))] in
  let run := Sample.run w true in
  error (data r) <> None
  /\ outcome run = Fulfils 0
  /\ status_queries (trace run) = 2%nat.
Proof.
  cbv zeta. split; [discriminate|]. split; reflexivity.
Qed.

(** C3: when the status endpoint answers with progress 0.2, 0.6 and 1.0 and
    no error, [upload] queries exactly three times, waits 1000 ms after each
    query (so between any two), and returns 0.  In general, after answers
    that keep the loop going, an answer with a null [error] and
    [progress >= 1] ends the run: [upload] returns 0 and never queries
    again. *)
Theorem C3_polls_until_progress_reaches_one
    w source name slug username token creds job :
  reaches_polling w source name slug username token creds job ->
  let run := upload w source name slug username token true in
  let query := HttpGet (uploadStatusUrl username (id job) token) json_headers in
  (forall d1 d2 d3 t1 t2 t3,
      error d1 = None -> progress d1 = Some (Finite 0.2) ->
      error d2 = None -> progress d2 = Some (Finite 0.6) ->
      error d3 = None -> progress d3 = Some (Finite 1.0) ->
      w_get_status w = [Responds (mkResponse 200 t1 d1);
                        Responds (mkResponse 200 t2 d2);
                        Responds (mkResponse 200 t3 d3)] ->
      outcome run = Fulfils 0
      /\ status_queries (trace run) = 3%nat
      /\ exists stages,
           trace run = stages ++ [query; Delay 1000; query; Delay 1000;
                                  query; Delay 1000]
           /\ status_queries stages = 0%nat)
  /\ (forall pre r rest p,
        w_get_status w = pre ++ Responds r :: rest ->
        forallb keeps_polling pre = true ->
        status r = 200 ->
        error (data r) = None ->
        progress (data r) = Some p ->
        Js.ge p (Finite 1) = true ->
        outcome run = Fulfils 0
        /\ status_queries (trace run) = S (length pre)).
Proof.
  intros Hr run query. split.
  - intros d1 d2 d3 t1 t2 t3 E1 P1 E2 P2 E3 P3 Hw.
    destruct (upload_poll_done w source name slug username token creds job
                [Responds (mkResponse 200 t1 d1); Responds (mkResponse 200 t2 d2)]
                (mkResponse 200 t3 d3) [] Hr Hw) as [file E].
    + cbn. rewrite E1, E2, P1, P2. reflexivity.
    + reflexivity.
    + cbn. rewrite E3. reflexivity.
    + cbn. rewrite P3. reflexivity.
    + subst run. rewrite E. unfold outcome, trace. cbn [fst snd].
      split; [reflexivity|]. split; [reflexivity|].
      exists (stage_events source name slug username token file creds).
      split; reflexivity.
  - intros pre r rest p Hw Hpre Hs He Hp Hge.
    destruct (upload_poll_done w source name slug username token creds job
                pre r rest Hr Hw Hpre Hs) as [file E].
    + rewrite He. reflexivity.
    + rewrite Hp. cbn. apply ge_not_lt, Hge.
    + subst run. rewrite E. unfold outcome, trace. cbn [fst snd].
      split; [reflexivity|]. rewrite status_queries_run. cbn. lia.
Qed.

Lemma C3_polls_until_progress_reaches_one_witness :
  let w := Sample.happy [Sample.ok None (Some (Finite 0.2));
                         Sample.ok None (Some (Finite 0.6));
                         Sample.ok None (Some (Finite 1.0))] in
  let run := Sample.run w true in
  outcome run = Fulfils 0 /\ status_queries (trace run) = 3%nat.
Proof.
  intros w run.
  destruct (C3_polls_until_progress_reaches_one w "roads.mbtiles" "Roads" "roads"
              "user" "tk" Sample.creds (Sample.job None (Some (Finite 0)) false)
              (happy_reaches_polling _)) as [H _].
  destruct (H (Sample.job None (Some (Finite 0.2)) false)
              (Sample.job None (Some (Finite 0.6)) false)
              (Sample.job None (Some (Finite 1.0)) false)
              "OK" "OK" "OK" eq_refl eq_refl eq_refl eq_refl eq_refl eq_refl eq_refl)
    as (Ho & Hq & _).
  split; [exact Ho | exact Hq].
Defined.

(** C9: after answers that keep the loop going, an answer with a null [error]
    and no [progress] field ends the loop, and [upload] returns 0, although no
    answer had a [progress] of 1 or more. *)
Theorem C9_absent_progress_succeeds
    w source name slug username token creds job pre r rest :
  reaches_polling w source name slug username token creds job ->
  w_get_status w = pre ++ Responds r :: rest ->
  forallb keeps_polling pre = true ->
  status r = 200 ->
  error (data r) = None ->
  progress (data r) = None ->
  let run := upload w source name slug username token true in
  outcome run = Fulfils 0
  /\ status_queries (trace run) = S (length pre)
  /\ forall a p, In a (pre ++ [Responds r]) ->
       match a with
       | Responds x => progress (data x) = Some p -> Js.ge p (Finite 1) = false
       | Fails _ => True
       end.
Proof.
  intros Hr Hw Hpre Hs He Hp run.
  destruct (upload_poll_done w source name slug username token creds job
              pre r rest Hr Hw Hpre Hs) as [file E].
  - rewrite He. reflexivity.
  - rewrite Hp. reflexivity.
  - subst run. rewrite E. unfold outcome, trace. cbn [fst snd].
    split; [reflexivity|]. split; [rewrite status_queries_run; cbn; lia|].
    intros a p Hin. apply in_app_or in Hin as [Hin|[<-|[]]].
    + rewrite forallb_forall in Hpre. specialize (Hpre a Hin).
      destruct a as [x|e]; [|exact I]. intros Hx.
      cbn in Hpre. rewrite Hx in Hpre.
      apply andb_prop in Hpre as [_ Hlt]. cbn in Hlt.
      destruct (Js.ge p (Finite 1)) eqn:G; [|reflexivity].
      apply ge_not_lt in G. congruence.
    + rewrite Hp. discriminate.
Qed.

Lemma C9_absent_progress_succeeds_witness :
  let r := mkResponse 200 "OK" (Sample.job None None false) in
  let w := Sample.happy [Sample.ok None (Some (Finite 0.2)); Responds r] in
  let run := Sample.run w true in
  progress (data r) = None
  /\ outcome run = Fulfils 0
  /\ status_queries (trace run) = 2%nat.
Proof.
  intros r w run. split; [reflexivity|].
  destruct (C9_absent_progress_succeeds w "roads.mbtiles" "Roads" "roads"
              "user" "tk" Sample.creds (Sample.job None (Some (Finite 0)) false)
              [Sample.ok None (Some (Finite 0.2))] r []
              (happy_reaches_polling _) eq_refl eq_refl eq_refl eq_refl eq_refl)
    as (Ho & Hq & _).
  split; [exact Ho | exact Hq].
Defined.

(** ** The run, stage by stage *)

Section Stages.

Variable w : World.
Variables source name slug username token : string.
Variable wait : bool.

Local Abbreviation s3_of creds :=
  {| o_accessKeyId := accessKeyId creds;
     o_secretAccessKey := secretAccessKey creds;
     o_region := "us-east-1";
     o_sessionToken := sessionToken creds |}.

Local Abbreviation req_of file creds :=
  {| Body := file; Bucket := bucket creds; Key := key creds |}.

Local Abbreviation start_of creds :=
  (upload_request username slug name (bucket creds) (key creds)).

(** Every way a run of [upload] can go, by the answers of the outside. *)
Lemma upload_by_cases :
  upload w source name slug username token wait
  = match w_readFileSync w source with
    | inl e => ([ReadFile source; ConsoleError (message e)], Fulfils (-1))
    | inr file =>
      let fetch := HttpPost (credentialsUrl username token) None [] in
      match w_post_credentials w (credentialsUrl username token) with
      | Fails e =>
          ([ReadFile source; fetch; ConsoleError (message e)], Fulfils (-1))
      | Responds rc =>
        if status rc =? 200 then
          let creds := data rc in
          let put := PutObject (s3_of creds) (req_of file creds) in
          let cb := w_putObject w (s3_of creds) (req_of file creds) in
          match cb_err cb with
          | Some err =>
              match cb_frame cb with
              | InCall =>
                  ([ReadFile source; fetch; put; ConsoleError (message err)],
                   Fulfils (-1))
              | FromEventLoop => ([ReadFile source; fetch; put], Escapes err)
              end
          | None =>
            let start := HttpPost (uploadUrl username token)
                           (Some (start_of creds)) json_headers in
            match w_post_upload w (uploadUrl username token) (start_of creds)
                    json_headers with
            | Fails e =>
                ([ReadFile source; fetch; put; start; ConsoleError (message e)],
                 Fulfils (-1))
            | Responds rs =>
              if status rs =? 201 then
                let m := try_catch
                           (if wait
                            then poll name (ps_tileset (data rs)) username
                                   (id (data rs)) token (w_get_status w)
                                   (Some (Finite 0))
                            else ret 0) handler in
                (ReadFile source :: fetch :: put :: start :: fst m, snd m)
              else
                ([ReadFile source; fetch; put; start;
                  ConsoleError
                    (if validateStatus (status rs)
                     then ("Could not start upload processing: "
                             ++ show (status rs) ++ ": "
                             ++ statusText rs ++ ".")%string
                     else ("Request failed with status code "
                             ++ show (status rs))%string)],
                 Fulfils (-1))
            end
          end
        else
          ([ReadFile source; fetch;
            ConsoleError
              (if validateStatus (status rc)
               then ("Could not fetch upload credentials, status: "
                       ++ show (status rc) ++ ": "
                       ++ statusText rc ++ ".")%string
               else ("Request failed with status code "
                       ++ show (status rc))%string)],
           Fulfils (-1))
      end
    end.
Proof.
  unfold upload, readFileSync, fetchCredentials, uploadToS3, putObject_promise,
    startUpload, axios_post, settle, handler.
  rewrite bind_emit.
  destruct (w_readFileSync w source) as [e|file]; [reflexivity|]. cbn.
  destruct (w_post_credentials w (credentialsUrl username token)) as [rc|e];
    [|reflexivity].
  destruct (status rc =? 200) eqn:Hc.
  2:{ destruct (validateStatus (status rc)); cbn; [rewrite Hc|]; reflexivity. }
  rewrite (validateStatus_200 rc Hc). cbn. rewrite Hc. cbn.
  destruct (cb_err _) as [err|].
  - destruct (cb_frame _); reflexivity.
  - cbn. destruct (w_post_upload _ _ _ _) as [rs|e]; [|reflexivity].
    destruct (status rs =? 201) eqn:Hs.
    2:{ destruct (validateStatus (status rs)); cbn; [rewrite Hs|]; reflexivity. }
    rewrite (validateStatus_201 rs Hs). cbn. rewrite Hs. cbn.
    destruct (if wait then _ else _) as [t [a|e|e|]]; reflexivity.
Qed.

End Stages.

(** The polling loop and the [catch] clause run none of the three stages and
    call [putObject] never. *)
Lemma poll_no_stage name tileset username id token answers : forall p,
  let m := try_catch (poll name tileset username id token answers p) handler in
  stages_run (fst m) = [] /\ putObject_calls (fst m) = 0%nat.
Proof.
  induction answers as [|a rest IH]; intros p; cbn [poll];
    destruct (in_progress p); try (split; reflexivity).
  unfold poll_once.
  destruct a as [r|e]; [rewrite getUploadStatus_answered | split; reflexivity].
  destruct (status r =? 200); [|split; reflexivity]. cbn.
  destruct (truthy (error (data r))); [split; reflexivity|]. cbn.
  specialize (IH (progress (data r))). cbn zeta in IH.
  destruct (poll name tileset username id token rest (progress (data r)))
    as [t [x|e|e|]]; cbn in *; exact IH.
Qed.

Lemma polling_no_stage name tileset username id token answers (wait : bool) :
  let m := try_catch (if wait
                      then poll name tileset username id token answers
                             (Some (Finite 0))
                      else ret 0) handler in
  stages_run (fst m) = [] /\ putObject_calls (fst m) = 0%nat.
Proof.
  destruct wait; [apply poll_no_stage | split; reflexivity].
Qed.

Lemma in_stages_run ev s t :
  In ev t -> In s (stage_of ev) -> In s (stages_run t).
Proof.
  intros Hev Hs. unfold stages_run. apply in_flat_map. exists ev. auto.
Qed.

(** No request with a body is sent while polling. *)
Lemma polling_no_start name tileset username id token answers (wait : bool)
    target body hs :
  ~ In (HttpPost target (Some body) hs)
       (fst (try_catch (if wait
                        then poll name tileset username id token answers
                               (Some (Finite 0))
                        else ret 0) handler)).
Proof.
  intros Hin.
  destruct (polling_no_stage name tileset username id token answers wait)
    as [Hs _]. cbn zeta in Hs.
  apply (in_stages_run _ ProcessingStart) in Hin; [|left; reflexivity].
  rewrite Hs in Hin. exact Hin.
Qed.

(** Splits a membership in an explicit list of events into its cases and
    closes those that name an event of another kind. *)
Ltac in_cases H :=
  repeat (destruct H as [H|H]; [try discriminate H|]); try contradiction.

(** ** The claims about the stages *)

(** C2 (the code at a storage error): [putObject] reports "Access Denied"
    from the event loop.  The callback throws it into the host, the promise
    of [uploadToS3] is never settled, and [upload] does not return -1: it
    returns nothing, and the [catch] clause reports nothing.  The processing
    is not started. *)
Theorem C2_storage_error_escapes :
  let run := Sample.run (Sample.world (Sample.denied FromEventLoop) 200 201 []) true in
  outcome run = Escapes (mkError "Access Denied")
  /\ outcome run <> Fulfils (-1)
  /\ stages_run (trace run) = [CredentialFetch; StorageUpload]
  /\ (forall text, ~ In (ConsoleError text) (trace run)).
Proof.
  cbv zeta. split; [reflexivity|]. split; [discriminate|].
  split; [reflexivity|]. intros text H. cbn in H. in_cases H.
Qed.

(** A storage error reported from the event loop, in any world: the run ends
    at the [putObject] call with the error thrown into the host. *)
Lemma putObject_error_escapes w source name slug username token wait file rc err :
  w_readFileSync w source = inr file ->
  w_post_credentials w (credentialsUrl username token) = Responds rc ->
  status rc = 200 ->
  (forall s3 req, cb_frame (w_putObject w s3 req) = FromEventLoop
                  /\ cb_err (w_putObject w s3 req) = Some err) ->
  outcome (upload w source name slug username token wait) = Escapes err
  /\ stages_run (trace (upload w source name slug username token wait))
     = [CredentialFetch; StorageUpload].
Proof.
  intros Hf Hc Hs Hcb. rewrite upload_by_cases, Hf, Hc, Hs. cbn.
  destruct (Hcb {| o_accessKeyId := accessKeyId (data rc);
                   o_secretAccessKey := secretAccessKey (data rc);
                   o_region := "us-east-1";
                   o_sessionToken := sessionToken (data rc) |}
                {| Body := file; Bucket := bucket (data rc); Key := key (data rc) |})
    as [-> ->].
  split; reflexivity.
Qed.

(** A storage error reported before [putObject] returns is caught: [upload]
    reports its message as it is and returns -1, and the processing is not
    started. *)
Lemma putObject_error_in_call w source name slug username token wait file rc err :
  w_readFileSync w source = inr file ->
  w_post_credentials w (credentialsUrl username token) = Responds rc ->
  status rc = 200 ->
  (forall s3 req, cb_frame (w_putObject w s3 req) = InCall
                  /\ cb_err (w_putObject w s3 req) = Some err) ->
  let run := upload w source name slug username token wait in
  outcome run = Fulfils (-1)
  /\ stages_run (trace run) = [CredentialFetch; StorageUpload]
  /\ last (trace run) (ReadFile source) = ConsoleError (message err).
Proof.
  intros Hf Hc Hs Hcb run. subst run. rewrite upload_by_cases, Hf, Hc, Hs. cbn.
  destruct (Hcb {| o_accessKeyId := accessKeyId (data rc);
                   o_secretAccessKey := secretAccessKey (data rc);
                   o_region := "us-east-1";
                   o_sessionToken := sessionToken (data rc) |}
                {| Body := file; Bucket := bucket (data rc); Key := key (data rc) |})
    as [-> ->].
  repeat split; reflexivity.
Qed.

(** C4: when the credentials request is answered with a status other than
    200, [upload] returns -1 and never calls [putObject].  Outside 200-299
    it is axios that rejects the request, from 201 to 299 it is
    [fetchCredentials] that throws; the [catch] of [upload] sees both. *)
Theorem C4_credentials_not_200 w source name slug username token wait rc :
  w_post_credentials w (credentialsUrl username token) = Responds rc ->
  status rc <> 200 ->
  let run := upload w source name slug username token wait in
  outcome run = Fulfils (-1) /\ putObject_calls (trace run) = 0%nat.
Proof.
  intros Hc Hs run. subst run. rewrite upload_by_cases, Hc.
  apply Z.eqb_neq in Hs. cbn zeta. rewrite Hs.
  destruct (w_readFileSync w source); split; reflexivity.
Qed.

Lemma C4_credentials_not_200_witness :
  let refused := Sample.run (Sample.world Sample.stored 403 201 []) true in
  let empty := Sample.run (Sample.world Sample.stored 204 201 []) true in
  (outcome refused = Fulfils (-1) /\ putObject_calls (trace refused) = 0%nat)
  /\ (outcome empty = Fulfils (-1) /\ putObject_calls (trace empty) = 0%nat).
Proof.
  split.
  - apply (C4_credentials_not_200 (Sample.world Sample.stored 403 201 [])
             "roads.mbtiles" "Roads" "roads" "user" "tk" true
             (mkResponse 403 "text" Sample.creds)).
    + reflexivity.
    + cbn. lia.
  - apply (C4_credentials_not_200 (Sample.world Sample.stored 204 201 [])
             "roads.mbtiles" "Roads" "roads" "user" "tk" true
             (mkResponse 204 "text" Sample.creds)).
    + reflexivity.
    + cbn. lia.
Defined.

(** The request with a body that a run sends is the processing-start request
    that [startUpload] builds from the credentials the run was given, and it
    is sent only after [putObject] reported no error. *)
Lemma start_request_sent w source name slug username token wait target body hs :
  In (HttpPost target (Some body) hs)
     (trace (upload w source name slug username token wait)) ->
  exists file rc,
    w_readFileSync w source = inr file
    /\ w_post_credentials w (credentialsUrl username token) = Responds rc
    /\ status rc = 200
    /\ cb_err (w_putObject w
                 {| o_accessKeyId := accessKeyId (data rc);
                    o_secretAccessKey := secretAccessKey (data rc);
                    o_region := "us-east-1";
                    o_sessionToken := sessionToken (data rc) |}
                 {| Body := file; Bucket := bucket (data rc);
                    Key := key (data rc) |}) = None
    /\ target = uploadUrl username token
    /\ body = upload_request username slug name (bucket (data rc)) (key (data rc))
    /\ hs = json_headers.
Proof.
  rewrite upload_by_cases. unfold trace.
  destruct (w_readFileSync w source) as [e|file]; cbn zeta.
  { intros H; cbn in H; in_cases H. }
  destruct (w_post_credentials w (credentialsUrl username token)) as [rc|e].
  2:{ intros H; cbn in H; in_cases H. }
  destruct (status rc =? 200) eqn:Hs.
  2:{ intros H; cbn in H; in_cases H. }
  apply Z.eqb_eq in Hs.
  destruct (cb_err _) as [err|] eqn:Hcb.
  { destruct (cb_frame _); intros H; cbn in H; in_cases H. }
  intros H. exists file, rc. repeat (split; [first [reflexivity|assumption]|]).
  assert (G : HttpPost (uploadUrl username token)
                (Some (upload_request username slug name (bucket (data rc))
                         (key (data rc)))) json_headers
              = HttpPost target (Some body) hs).
  { destruct (w_post_upload _ _ _ _) as [rs|e].
    - destruct (status rs =? 201).
      + cbn [fst] in H.
        destruct H as [H|[H|[H|[H|H]]]]; try discriminate H; [exact H|].
        apply polling_no_start in H. contradiction.
      + cbn in H. destruct H as [H|[H|[H|[H|H]]]]; try discriminate H;
          [exact H|]. in_cases H.
    - cbn in H. destruct H as [H|[H|[H|[H|H]]]]; try discriminate H;
        [exact H|]. in_cases H. }
  injection G as <- <- <-. repeat split; reflexivity.
Qed.

(** C5: when the processing-start request is answered with a status other
    than 201, [upload] returns -1 and sends no status query.  Outside
    200-299 it is axios that rejects the request, for the other statuses it
    is [startUpload] that throws; the [catch] of [upload] sees both. *)
Theorem C5_start_not_201
    w source name slug username token wait target body hs rs :
  let run := upload w source name slug username token wait in
  In (HttpPost target (Some body) hs) (trace run) ->
  w_post_upload w target body hs = Responds rs ->
  status rs <> 201 ->
  outcome run = Fulfils (-1) /\ status_queries (trace run) = 0%nat.
Proof.
  intros run Hin Hj Hs. subst run.
  apply start_request_sent in Hin
    as (file & rc & Hf & Hc & Hsc & Hcb & -> & -> & ->).
  rewrite upload_by_cases, Hf, Hc, Hsc. cbn. rewrite Hcb, Hj.
  apply Z.eqb_neq in Hs. rewrite Hs. split; reflexivity.
Qed.

Lemma C5_start_not_201_witness :
  let refused :=
    Sample.run (Sample.world Sample.stored 200 422 [Sample.ok None None]) true in
  let plain :=
    Sample.run (Sample.world Sample.stored 200 200 [Sample.ok None None]) true in
  (outcome refused = Fulfils (-1) /\ status_queries (trace refused) = 0%nat)
  /\ (outcome plain = Fulfils (-1) /\ status_queries (trace plain) = 0%nat).
Proof.
  split.
  - apply (C5_start_not_201
             (Sample.world Sample.stored 200 422 [Sample.ok None None])
             "roads.mbtiles" "Roads" "roads" "user" "tk" true
             (uploadUrl "user" "tk")
             (upload_request "user" "roads" "Roads" (bucket Sample.creds)
                (key Sample.creds))
             json_headers
             (mkResponse 422 "text" (Sample.job None (Some (Finite 0)) false))).
    + cbn. right. right. right. left. reflexivity.
    + reflexivity.
    + cbn. lia.
  - apply (C5_start_not_201
             (Sample.world Sample.stored 200 200 [Sample.ok None None])
             "roads.mbtiles" "Roads" "roads" "user" "tk" true
             (uploadUrl "user" "tk")
             (upload_request "user" "roads" "Roads" (bucket Sample.creds)
                (key Sample.creds))
             json_headers
             (mkResponse 200 "text" (Sample.job None (Some (Finite 0)) false))).
    + cbn. right. right. right. left. reflexivity.
    + reflexivity.
    + cbn. lia.
Defined.

(** C6: in every run the credentials request, the [putObject] call and the
    processing-start request happen in this order, each at most once and none
    without the one before; and when the processing-start request is sent,
    the [putObject] call of the run has reported no error. *)
Theorem C6_stages_in_order w source name slug username token wait :
  let run := upload w source name slug username token wait in
  (exists n, stages_run (trace run)
             = firstn n [CredentialFetch; StorageUpload; ProcessingStart])
  /\ (In ProcessingStart (stages_run (trace run)) ->
      exists s3 req,
        In (PutObject s3 req) (trace run)
        /\ cb_err (w_putObject w s3 req) = None).
Proof.
  intros run. subst run. rewrite upload_by_cases. unfold trace.
  destruct (w_readFileSync w source) as [e|file]; cbn zeta.
  { split; [exists 0%nat; reflexivity|]. intros H; cbn in H; in_cases H. }
  destruct (w_post_credentials w (credentialsUrl username token)) as [rc|e].
  2:{ split; [exists 1%nat; reflexivity|]. intros H; cbn in H; in_cases H. }
  destruct (status rc =? 200).
  2:{ split; [exists 1%nat; reflexivity|]. intros H; cbn in H; in_cases H. }
  destruct (cb_err _) as [err|] eqn:Hcb.
  { destruct (cb_frame _);
      (split; [exists 2%nat; reflexivity|]); intros H; cbn in H; in_cases H. }
  split.
  - exists 3%nat.
    destruct (w_post_upload _ _ _ _) as [rs|e]; [|reflexivity].
    destruct (status rs =? 201); [|reflexivity].
    cbn [fst]. unfold stages_run. cbn [flat_map stage_of app].
    fold (stages_run (fst (try_catch
            (if wait
             then poll name (ps_tileset (data rs)) username (id (data rs)) token
                    (w_get_status w) (Some (Finite 0))
             else ret 0) handler))).
    destruct (polling_no_stage name (ps_tileset (data rs)) username
                (id (data rs)) token (w_get_status w) wait) as [-> _].
    reflexivity.
  - intros _. eexists; eexists. split; [|exact Hcb].
    destruct (w_post_upload _ _ _ _) as [rs|e];
      [destruct (status rs =? 201)|]; cbn; auto.
Qed.

Lemma C6_stages_in_order_witness :
  let w := Sample.happy [Sample.ok None (Some (Finite 1))] in
  let run := Sample.run w true in
  stages_run (trace run) = [CredentialFetch; StorageUpload; ProcessingStart]
  /\ exists s3 req,
       In (PutObject s3 req) (trace run) /\ cb_err (w_putObject w s3 req) = None.
Proof.
  intros w run. split; [reflexivity|].
  apply (proj2 (C6_stages_in_order w "roads.mbtiles" "Roads" "roads" "user" "tk" true)).
  cbn. right. right. left. reflexivity.
Defined.

(** C7: the body of the processing-start request names the tileset
    [username], a dot, [slug]: the two strings as they were given. *)
Theorem C7_tileset_is_username_dot_slug
    w source name slug username token wait target body hs :
  In (HttpPost target (Some body) hs)
     (trace (upload w source name slug username token wait)) ->
  target = uploadUrl username token
  /\ tileset body = (username ++ "." ++ slug)%string.
Proof.
  intros Hin.
  apply start_request_sent in Hin as (file & rc & _ & _ & _ & _ & -> & -> & _).
  split; reflexivity.
Qed.

Lemma C7_tileset_is_username_dot_slug_witness :
  exists body,
    In (HttpPost (uploadUrl "o'neil" "tk") (Some body) json_headers)
       (trace (upload (Sample.happy []) "roads.mbtiles" "Roads" "main roads/1"
                 "o'neil" "tk" false))
    /\ tileset body = "o'neil.main roads/1".
Proof.
  exists (upload_request "o'neil" "main roads/1" "Roads" (bucket Sample.creds)
            (key Sample.creds)).
  assert (Hin : In (HttpPost (uploadUrl "o'neil" "tk")
                      (Some (upload_request "o'neil" "main roads/1" "Roads"
                               (bucket Sample.creds) (key Sample.creds)))
                      json_headers)
                   (trace (upload (Sample.happy []) "roads.mbtiles" "Roads"
                             "main roads/1" "o'neil" "tk" false))).
  { cbn. right. right. right. left. reflexivity. }
  split; [exact Hin|].
  exact (proj2 (C7_tileset_is_username_dot_slug _ _ _ _ _ _ _ _ _ _ Hin)).
Defined.

(** C8: the body of the processing-start request gives as the URL of the
    object ["http://"], the bucket, [".s3.amazonaws.com/"] and the key, with
    the bucket and the key of the answer to the credentials request. *)
Theorem C8_object_url
    w source name slug username token wait target body hs :
  In (HttpPost target (Some body) hs)
     (trace (upload w source name slug username token wait)) ->
  exists rc,
    w_post_credentials w (credentialsUrl username token) = Responds rc
    /\ url body = ("http://" ++ bucket (data rc) ++ ".s3.amazonaws.com/"
                     ++ key (data rc))%string
    /\ url body = fileUrl (bucket (data rc)) (key (data rc)).
Proof.
  intros Hin.
  apply start_request_sent in Hin as (file & rc & _ & Hc & _ & _ & _ & -> & _).
  exists rc. split; [exact Hc|]. split; reflexivity.
Qed.

Lemma C8_object_url_witness :
  exists body,
    In (HttpPost (uploadUrl "user" "tk") (Some body) json_headers)
       (trace (Sample.run (Sample.happy []) false))
    /\ url body
       = "http://tilestream-tilesets-production.s3.amazonaws.com/_pending/abc/user".
Proof.
  exists (upload_request "user" "roads" "Roads" (bucket Sample.creds)
            (key Sample.creds)).
  assert (Hin : In (HttpPost (uploadUrl "user" "tk")
                      (Some (upload_request "user" "roads" "Roads"
                               (bucket Sample.creds) (key Sample.creds)))
                      json_headers)
                   (trace (Sample.run (Sample.happy []) false))).
  { cbn. right. right. right. left. reflexivity. }
  split; [exact Hin|].
  destruct (C8_object_url (Sample.happy []) "roads.mbtiles" "Roads" "roads"
              "user" "tk" false _ _ _ Hin) as (rc & Hc & Hu & _).
  injection Hc as <-. exact Hu.
Defined.

(** ** The [complete] field *)

(** The loop behaves the same on an answer and on this answer with another
    [complete]. *)
Lemma poll_set_complete name tileset username id token b answers : forall p,
  poll name tileset username id token (map (set_complete b) answers) p
  = poll name tileset username id token answers p.
Proof.
  induction answers as [|a rest IH]; intros p; [reflexivity|].
  cbn [map poll]. destruct (in_progress p); [|reflexivity].
  unfold poll_once.
  destruct a as [r|e]; [|reflexivity]. cbn [set_complete].
  rewrite !getUploadStatus_answered. cbn [status statusText data error progress].
  destruct (status r =? 200); [|reflexivity]. cbn.
  destruct (truthy (error (data r))); [reflexivity|]. cbn.
  rewrite IH. reflexivity.
Qed.

(** C10: [upload] never reads [complete].  In two worlds whose answers to the
    status queries differ in their [complete] fields at most, the two runs
    are the same: the same interactions, hence the same number of status
    queries, and the same outcome. *)
Theorem C10_complete_is_never_read
    w l1 l2 source name slug username token wait :
  same_but_complete l1 l2 ->
  let run1 := upload (with_status w l1) source name slug username token wait in
  let run2 := upload (with_status w l2) source name slug username token wait in
  run1 = run2
  /\ status_queries (trace run1) = status_queries (trace run2)
  /\ outcome run1 = outcome run2.
Proof.
  intros H run1 run2.
  assert (E : run1 = run2); [|rewrite E; auto].
  subst run1 run2. rewrite !upload_by_cases. cbn [with_status w_readFileSync
    w_post_credentials w_putObject w_post_upload w_get_status].
  destruct (w_readFileSync w source) as [e|file]; [reflexivity|]. cbn zeta.
  destruct (w_post_credentials w _) as [rc|e]; [|reflexivity].
  destruct (status rc =? 200); [|reflexivity].
  destruct (cb_err _); [reflexivity|].
  destruct (w_post_upload w _ _ _) as [rs|e]; [|reflexivity].
  destruct (status rs =? 201); [|reflexivity].
  destruct wait; [|reflexivity].
  rewrite <- (poll_set_complete _ _ _ _ _ false l1).
  rewrite <- (poll_set_complete _ _ _ _ _ false l2).
  unfold same_but_complete in H. rewrite H. reflexivity.
Qed.

Lemma C10_complete_is_never_read_witness :
  let l1 := [Responds (mkResponse 200 "OK" (Sample.job None (Some (Finite 0.4)) true));
             Responds (mkResponse 200 "OK" (Sample.job None (Some (Finite 1)) false))] in
  let l2 := [Responds (mkResponse 200 "OK" (Sample.job None (Some (Finite 0.4)) false));
             Responds (mkResponse 200 "OK" (Sample.job None (Some (Finite 1)) true))] in
  l1 <> l2
  /\ status_queries (trace (Sample.run (Sample.happy l1) true))
     = status_queries (trace (Sample.run (Sample.happy l2) true))
  /\ outcome (Sample.run (Sample.happy l1) true)
     = outcome (Sample.run (Sample.happy l2) true).
Proof.
  intros l1 l2. split; [discriminate|].
  exact (proj2 (C10_complete_is_never_read (Sample.happy []) l1 l2
                  "roads.mbtiles" "Roads" "roads" "user" "tk" true eq_refl)).
Defined.

(** * Further properties of upload.ts *)

(** ** The polling loop, in general *)

Lemma delays_app (t1 t2 : list event) :
  delays (t1 ++ t2) = (delays t1 + delays t2)%nat.
Proof. unfold delays. rewrite filter_app, length_app. reflexivity. Qed.

Lemma reports_app (t1 t2 : list event) :
  reports (t1 ++ t2) = (reports t1 + reports t2)%nat.
Proof. unfold reports. rewrite filter_app, length_app. reflexivity. Qed.

Lemma delays_turns (username id token : string) pre :
  delays (turns username id token pre) = length pre.
Proof.
  induction pre as [|a pre IH]; [reflexivity|].
  unfold turns in *. cbn [flat_map]. rewrite delays_app, IH. reflexivity.
Qed.

Lemma reports_turns (username id token : string) pre :
  reports (turns username id token pre) = 0%nat.
Proof.
  induction pre as [|a pre IH]; [reflexivity|].
  unfold turns in *. cbn [flat_map]. rewrite reports_app, IH. reflexivity.
Qed.

Section PollInGeneral.

Variables name tileset username id token : string.

Local Abbreviation loop := (poll name tileset username id token).
Local Abbreviation query := (HttpGet (uploadStatusUrl username id token) json_headers).

(** With no answer left the loop queries and waits for ever. *)
Lemma poll_unanswered p :
  in_progress p = true -> loop [] p = ([query], Hangs).
Proof. intros Hp. cbn [poll]. rewrite Hp. reflexivity. Qed.

(** The turn on an answer that does not keep the loop going is the last one:
    success after the delay, or a failure report. *)
Lemma poll_stop a rest p :
  in_progress p = true -> keeps_polling a = false ->
  try_catch (loop (a :: rest) p) handler = ([query; Delay 1000], Fulfils 0)
  \/ (exists text,
        try_catch (loop (a :: rest) p) handler
        = ([query; SpinnerFail text], Fulfils (-1)))
  \/ (exists text,
        try_catch (loop (a :: rest) p) handler
        = ([query; ConsoleError text], Fulfils (-1))).
Proof.
  intros Hp Ha. cbn [poll]. rewrite Hp.
  unfold poll_once.
  destruct a as [r|e];
    [rewrite getUploadStatus_answered | right; right; eexists; reflexivity].
  cbn in Ha |- *. destruct (status r =? 200);
    [|right; right; eexists; reflexivity].
  cbn in Ha |- *. destruct (truthy (error (data r)));
    [right; left; eexists; reflexivity|].
  cbn in Ha |- *. left. rewrite (poll_exit _ _ _ _ _ rest _ Ha). reflexivity.
Qed.

(** What a polling is made of, and how it can end: with 0 after as many
    delays as queries, with -1 after one report and one delay fewer than
    queries, or waiting for an answer. *)
Lemma poll_invariant answers : forall p,
  let m := try_catch (loop answers p) handler in
  (forall ev, In ev (fst m) ->
     ev = query \/ ev = Delay 1000
     \/ exists text, ev = SpinnerFail text \/ ev = ConsoleError text)
  /\ match snd m with
     | Fulfils a =>
         (a = 0 /\ delays (fst m) = status_queries (fst m)
          /\ reports (fst m) = 0%nat
          /\ (in_progress p = true -> (1 <= status_queries (fst m))%nat))
         \/ (a = -1 /\ S (delays (fst m)) = status_queries (fst m)
             /\ reports (fst m) = 1%nat)
     | Hangs => S (delays (fst m)) = status_queries (fst m)
                /\ reports (fst m) = 0%nat
     | Rejects _ | Escapes _ => False
     end.
Proof.
  induction answers as [|a rest IH]; intros p; cbn zeta;
    destruct (in_progress p) eqn:Hp.
  - rewrite (poll_unanswered p Hp). cbn. split; [|split; reflexivity].
    intros ev [<-|[]]. auto.
  - rewrite (poll_exit _ _ _ _ _ [] p Hp). cbn. split; [intros ev []|].
    left. repeat split; try reflexivity. discriminate.
  - destruct (keeps_polling a) eqn:Ha.
    + destruct (poll_turn name tileset username id token a rest p Hp Ha)
        as [E Hq].
      specialize (IH (progress_after p [a])). cbn zeta in IH.
      change (query :: Delay 1000 :: fst (loop rest (progress_after p [a])))
        with ([query; Delay 1000] ++ fst (loop rest (progress_after p [a]))) in E.
      rewrite E, try_catch_prefix. cbn [fst snd].
      destruct IH as [Hev Hend]. split.
      * intros ev Hin. apply in_app_or in Hin as [Hin|Hin]; [|auto].
        destruct Hin as [<-|[<-|[]]]; auto.
      * rewrite delays_app, status_queries_app, reports_app. cbn [app].
        change (delays [query; Delay 1000]) with 1%nat.
        change (status_queries [query; Delay 1000]) with 1%nat.
        change (reports [query; Delay 1000]) with 0%nat.
        destruct (snd (try_catch (loop rest (progress_after p [a])) handler))
          as [x|e|e|]; try contradiction.
        -- destruct Hend as [(-> & Hd & Hr & _)|(-> & Hd & Hr)];
             [left|right]; repeat split; try lia.
        -- destruct Hend as [Hd Hr]. split; lia.
    + destruct (poll_stop a rest p Hp Ha) as [E|[[text E]|[text E]]];
        rewrite E; cbn [fst snd].
      * split; [|left; repeat split; cbn; lia].
        intros ev [<-|[<-|[]]]; auto.
      * split; [|right; repeat split].
        intros ev [<-|[<-|[]]]; eauto.
      * split; [|right; repeat split].
        intros ev [<-|[<-|[]]]; eauto.
  - rewrite (poll_exit _ _ _ _ _ (a :: rest) p Hp). cbn. split; [intros ev []|].
    left. repeat split; try reflexivity. discriminate.
Qed.

(** The answers that follow the first one that does not keep the loop going
    are not looked at. *)
Lemma poll_ignores_rest pre a rest : forall p,
  forallb keeps_polling pre = true -> keeps_polling a = false ->
  loop (pre ++ a :: rest) p = loop (pre ++ [a]) p.
Proof.
  induction pre as [|b pre IH]; intros p Hpre Ha.
  - cbn [app poll]. destruct (in_progress p); [|reflexivity].
    unfold poll_once.
    destruct a as [r|e]; [rewrite !getUploadStatus_answered | reflexivity].
    cbn in Ha |- *. destruct (status r =? 200); [|reflexivity].
    cbn in Ha |- *. destruct (truthy (error (data r))); [reflexivity|].
    cbn in Ha |- *.
    rewrite (poll_exit _ _ _ _ _ rest _ Ha), ?Ha. reflexivity.
  - cbn [forallb] in Hpre. apply andb_prop in Hpre as [Hb Hpre].
    destruct (in_progress p) eqn:Hp.
    + cbn [app].
      destruct (poll_turn name tileset username id token b (pre ++ a :: rest)
                  p Hp Hb) as [-> _].
      destruct (poll_turn name tileset username id token b (pre ++ [a])
                  p Hp Hb) as [-> _].
      rewrite (IH _ Hpre Ha). reflexivity.
    + rewrite !poll_exit by exact Hp. reflexivity.
Qed.

End PollInGeneral.

(** ** Every run *)

(** Goes through the answers of the outside to the stages of a run written
    with [upload_by_cases]: one goal for each way the run can go. *)
Ltac stage_cases w source username token :=
  destruct (w_readFileSync w source) as [?e|?file] eqn:?Hread; cbn zeta;
  [| destruct (w_post_credentials w (credentialsUrl username token))
       as [?rc|?e] eqn:?Hcreds;
     [ match goal with
       | |- context [status ?r =? 200] =>
           destruct (status r =? 200) eqn:?H200;
           [ match goal with
             | |- context [cb_err ?c] =>
                 destruct (cb_err c) as [?err|] eqn:?Hcb;
                 [ destruct (cb_frame c) eqn:?Hframe
                 | match goal with
                   | |- context [w_post_upload w ?t ?b ?h] =>
                       destruct (w_post_upload w t b h) as [?rs|?e] eqn:?Hstart;
                       [ match goal with
                         | |- context [status ?r' =? 201] =>
                             destruct (status r' =? 201) eqn:?H201
                         end
                       | ]
                   end ]
             end
           | ]
       end
     | ] ].

(** The polling of a run, or nothing without [--wait]. *)
Lemma polling_invariant name tileset username id token answers (wait : bool) :
  let m := try_catch (if wait
                      then poll name tileset username id token answers
                             (Some (Finite 0))
                      else ret 0) handler in
  (forall ev, In ev (fst m) ->
     ev = HttpGet (uploadStatusUrl username id token) json_headers
     \/ ev = Delay 1000
     \/ exists text, ev = SpinnerFail text \/ ev = ConsoleError text)
  /\ match snd m with
     | Fulfils a =>
         (a = 0 /\ delays (fst m) = status_queries (fst m)
          /\ reports (fst m) = 0%nat
          /\ (wait = true -> (1 <= status_queries (fst m))%nat))
         \/ (a = -1 /\ S (delays (fst m)) = status_queries (fst m)
             /\ reports (fst m) = 1%nat)
     | Hangs => S (delays (fst m)) = status_queries (fst m)
                /\ reports (fst m) = 0%nat
     | Rejects _ | Escapes _ => False
     end.
Proof.
  destruct wait.
  - exact (poll_invariant name tileset username id token answers
             (Some (Finite 0))).
  - cbn. split; [intros ev []|]. left. repeat split; try reflexivity.
    discriminate.
Qed.

(** How a run of [upload] can end, with the numbers of its queries, delays
    and reports. *)
Lemma upload_invariant w source name slug username token wait :
  let run := upload w source name slug username token wait in
  (forall ms, In (Delay ms) (trace run) -> ms = 1000)
  /\ match outcome run with
     | Fulfils a =>
         (a = 0 /\ delays (trace run) = status_queries (trace run)
          /\ reports (trace run) = 0%nat
          /\ (wait = true -> (1 <= status_queries (trace run))%nat))
         \/ (a = -1 /\ (delays (trace run) <= status_queries (trace run))%nat
             /\ reports (trace run) = 1%nat)
     | Hangs => S (delays (trace run)) = status_queries (trace run)
                /\ reports (trace run) = 0%nat
     | Escapes _ => status_queries (trace run) = 0%nat
                    /\ delays (trace run) = 0%nat
                    /\ reports (trace run) = 0%nat
     | Rejects _ => False
     end.
Proof.
  cbn zeta. rewrite upload_by_cases. unfold trace, outcome.
  stage_cases w source username token; cbn [fst snd];
    try (split; [intros ms H; cbn in H; in_cases H
                | first [ right; repeat split; cbn; lia
                        | repeat split; reflexivity ] ]).
  destruct (polling_invariant name (ps_tileset (data rs)) username
              (id (data rs)) token (w_get_status w) wait) as [Hev Hend].
  cbn zeta in Hev, Hend.
  set (m := try_catch _ handler) in *. split.
  - intros ms H. destruct H as [H|[H|[H|[H|H]]]]; try discriminate H.
    destruct (Hev _ H) as [E|[E|[text [E|E]]]]; try discriminate E.
    injection E as ->. reflexivity.
  - change (ReadFile source :: ?a :: ?b :: ?c :: fst m)
      with ([ReadFile source; a; b; c] ++ fst m).
    rewrite delays_app, status_queries_app, reports_app. cbn [app].
    destruct (snd m) as [a|e|e|]; try contradiction.
    + destruct Hend as [(Ha & Hd & Hr & Hq)|(Ha & Hd & Hr)]; [left|right];
        repeat split; cbn; try assumption; try lia.
    + destruct Hend as [Hd Hr]. split; cbn; lia.
Qed.

(** ** Without [--wait] *)

(** X1: without [--wait] no run queries the status or waits; when the four
    stages succeed, the run is these four interactions and [upload] returns
    0. *)
Theorem no_wait_never_polls w source name slug username token :
  let run := upload w source name slug username token false in
  status_queries (trace run) = 0%nat
  /\ delays (trace run) = 0%nat
  /\ forall creds job,
       reaches_polling w source name slug username token creds job ->
       exists file,
         run = (stage_events source name slug username token file creds,
                Fulfils 0).
Proof.
  cbn zeta. split; [|split].
  - rewrite upload_by_cases. unfold trace.
    stage_cases w source username token; reflexivity.
  - rewrite upload_by_cases. unfold trace.
    stage_cases w source username token; reflexivity.
  - intros creds job Hr.
    destruct (upload_started _ _ _ _ _ _ _ _ false Hr) as [file E].
    exists file. rewrite E. reflexivity.
Qed.

Lemma no_wait_never_polls_witness :
  let run := Sample.run (Sample.happy [Sample.ok (Some "bad file") None]) false in
  status_queries (trace run) = 0%nat
  /\ exists file,
       run = (stage_events "roads.mbtiles" "Roads" "roads" "user" "tk" file
                Sample.creds,
              Fulfils 0).
Proof.
  intros run.
  destruct (no_wait_never_polls (Sample.happy [Sample.ok (Some "bad file") None])
              "roads.mbtiles" "Roads" "roads" "user" "tk") as (Hq & _ & H).
  split; [exact Hq|].
  exact (H Sample.creds (Sample.job None (Some (Finite 0)) false)
           (happy_reaches_polling _)).
Defined.

(** ** Failures before polling *)

(** X2: when the file cannot be read, [upload] reports the message of the
    error and returns -1 without any request: the run is the read and the
    report. *)
Theorem unreadable_file_aborts w source name slug username token wait e :
  w_readFileSync w source = inl e ->
  upload w source name slug username token wait
  = ([ReadFile source; ConsoleError (message e)], Fulfils (-1)).
Proof. intros H. rewrite upload_by_cases, H. reflexivity. Qed.

Lemma unreadable_file_aborts_witness :
  Sample.run Failing.unreadable true
  = ([ReadFile "roads.mbtiles";
      ConsoleError "ENOENT: no such file or directory"], Fulfils (-1)).
Proof.
  apply (unreadable_file_aborts Failing.unreadable "roads.mbtiles" "Roads"
           "roads" "user" "tk" true
           (mkError "ENOENT: no such file or directory")).
  reflexivity.
Defined.

(** X3: when [axios] rejects the credentials request, [upload] reports the
    message of the rejection and returns -1; [putObject] is not called and
    nothing else is requested. *)
Theorem credentials_request_rejected
    w source name slug username token wait file e :
  w_readFileSync w source = inr file ->
  w_post_credentials w (credentialsUrl username token) = Fails e ->
  upload w source name slug username token wait
  = ([ReadFile source; HttpPost (credentialsUrl username token) None [];
      ConsoleError (message e)], Fulfils (-1)).
Proof. intros Hf Hc. rewrite upload_by_cases, Hf, Hc. reflexivity. Qed.

Lemma credentials_request_rejected_witness :
  Sample.run Failing.no_credentials true
  = ([ReadFile "roads.mbtiles";
      HttpPost "https://api.mapbox.com/uploads/v1/user/credentials?access_token=tk"
        None [];
      ConsoleError "Request failed with status code 401"], Fulfils (-1)).
Proof.
  apply (credentials_request_rejected Failing.no_credentials "roads.mbtiles"
           "Roads" "roads" "user" "tk" true Sample.file
           (mkError "Request failed with status code 401"));
    reflexivity.
Defined.

(** X4: when the credentials request is answered with a status other than
    200, the run ends there with one report.  For a status outside 200-299
    the report is the message of the rejection of axios, "Request failed
    with status code " and the status; for a status from 201 to 299 it is
    "Could not fetch upload credentials, status: ", the status, ": ", the
    status text and a full stop. *)
Theorem credentials_not_200_message
    w source name slug username token wait file rc :
  w_readFileSync w source = inr file ->
  w_post_credentials w (credentialsUrl username token) = Responds rc ->
  status rc <> 200 ->
  upload w source name slug username token wait
  = ([ReadFile source; HttpPost (credentialsUrl username token) None [];
      ConsoleError
        (if (200 <=? status rc) && (status rc <? 300)
         then ("Could not fetch upload credentials, status: "
                 ++ show (status rc) ++ ": " ++ statusText rc ++ ".")%string
         else ("Request failed with status code " ++ show (status rc))%string)],
     Fulfils (-1)).
Proof.
  intros Hf Hc Hs. apply Z.eqb_neq in Hs.
  rewrite upload_by_cases, Hf, Hc. cbn zeta. rewrite Hs. reflexivity.
Qed.

Lemma credentials_not_200_message_witness :
  Sample.run (Sample.world Sample.stored 403 201 []) true
  = ([ReadFile "roads.mbtiles";
      HttpPost "https://api.mapbox.com/uploads/v1/user/credentials?access_token=tk"
        None [];
      ConsoleError "Request failed with status code 403"],
     Fulfils (-1))
  /\ Sample.run (Sample.world Sample.stored 204 201 []) true
     = ([ReadFile "roads.mbtiles";
         HttpPost "https://api.mapbox.com/uploads/v1/user/credentials?access_token=tk"
           None [];
         ConsoleError "Could not fetch upload credentials, status: 204: text."],
        Fulfils (-1)).
Proof.
  split.
  - apply (credentials_not_200_message (Sample.world Sample.stored 403 201 [])
             "roads.mbtiles" "Roads" "roads" "user" "tk" true Sample.file
             (mkResponse 403 "text" Sample.creds)).
    + reflexivity.
    + reflexivity.
    + cbn. lia.
  - apply (credentials_not_200_message (Sample.world Sample.stored 204 201 [])
             "roads.mbtiles" "Roads" "roads" "user" "tk" true Sample.file
             (mkResponse 204 "text" Sample.creds)).
    + reflexivity.
    + reflexivity.
    + cbn. lia.
Defined.

(** X5: when the processing-start request is answered with a status other
    than 201, [upload] returns -1 and its last interaction is one report.
    For a status outside 200-299 the report is the message of the rejection
    of axios, "Request failed with status code " and the status; for the
    other statuses it is "Could not start upload processing: ", the status,
    ": ", the status text and a full stop.  The file has been stored by
    then: the [putObject] call is in the run. *)
Theorem start_not_201_message
    w source name slug username token wait file rc rs :
  w_readFileSync w source = inr file ->
  w_post_credentials w (credentialsUrl username token) = Responds rc ->
  status rc = 200 ->
  (forall s3 req, cb_err (w_putObject w s3 req) = None) ->
  w_post_upload w (uploadUrl username token)
    (upload_request username slug name (bucket (data rc)) (key (data rc)))
    json_headers = Responds rs ->
  status rs <> 201 ->
  let run := upload w source name slug username token wait in
  outcome run = Fulfils (-1)
  /\ putObject_calls (trace run) = 1%nat
  /\ last (trace run) (ReadFile source)
     = ConsoleError
         (if (200 <=? status rs) && (status rs <? 300)
          then ("Could not start upload processing: "
                  ++ show (status rs) ++ ": " ++ statusText rs ++ ".")%string
          else ("Request failed with status code " ++ show (status rs))%string).
Proof.
  intros Hf Hc Hsc Hcb Hj Hs. apply Z.eqb_neq in Hs. cbn zeta.
  rewrite upload_by_cases, Hf, Hc, Hsc. cbn. rewrite Hcb, Hj, Hs.
  repeat split; reflexivity.
Qed.

Lemma start_not_201_message_witness :
  let refused := Sample.run (Sample.world Sample.stored 200 422 []) true in
  let plain := Sample.run (Sample.world Sample.stored 200 200 []) true in
  (outcome refused = Fulfils (-1)
   /\ putObject_calls (trace refused) = 1%nat
   /\ last (trace refused) (ReadFile "roads.mbtiles")
      = ConsoleError "Request failed with status code 422")
  /\ (outcome plain = Fulfils (-1)
      /\ putObject_calls (trace plain) = 1%nat
      /\ last (trace plain) (ReadFile "roads.mbtiles")
         = ConsoleError "Could not start upload processing: 200: text.").
Proof.
  split.
  - apply (start_not_201_message (Sample.world Sample.stored 200 422 [])
             "roads.mbtiles" "Roads" "roads" "user" "tk" true Sample.file
             (mkResponse 200 "text" Sample.creds)
             (mkResponse 422 "text" (Sample.job None (Some (Finite 0)) false))).
    + reflexivity.
    + reflexivity.
    + reflexivity.
    + intros; reflexivity.
    + reflexivity.
    + cbn. lia.
  - apply (start_not_201_message (Sample.world Sample.stored 200 200 [])
             "roads.mbtiles" "Roads" "roads" "user" "tk" true Sample.file
             (mkResponse 200 "text" Sample.creds)
             (mkResponse 200 "text" (Sample.job None (Some (Finite 0)) false))).
    + reflexivity.
    + reflexivity.
    + reflexivity.
    + intros; reflexivity.
    + reflexivity.
    + cbn. lia.
Defined.

(** X6: when [axios] rejects the processing-start request, [upload] reports
    the message of the rejection and returns -1 without any status query,
    also with [--wait]. *)
Theorem start_request_rejected
    w source name slug username token wait file rc e :
  w_readFileSync w source = inr file ->
  w_post_credentials w (credentialsUrl username token) = Responds rc ->
  status rc = 200 ->
  (forall s3 req, cb_err (w_putObject w s3 req) = None) ->
  w_post_upload w (uploadUrl username token)
    (upload_request username slug name (bucket (data rc)) (key (data rc)))
    json_headers = Fails e ->
  let run := upload w source name slug username token wait in
  outcome run = Fulfils (-1)
  /\ status_queries (trace run) = 0%nat
  /\ last (trace run) (ReadFile source) = ConsoleError (message e).
Proof.
  intros Hf Hc Hsc Hcb Hj. cbn zeta.
  rewrite upload_by_cases, Hf, Hc, Hsc. cbn. rewrite Hcb, Hj.
  repeat split; reflexivity.
Qed.

Lemma start_request_rejected_witness :
  let run := Sample.run Failing.no_start true in
  outcome run = Fulfils (-1)
  /\ status_queries (trace run) = 0%nat
  /\ last (trace run) (ReadFile "roads.mbtiles")
     = ConsoleError "Request failed with status code 422".
Proof.
  apply (start_request_rejected Failing.no_start
           "roads.mbtiles" "Roads" "roads" "user" "tk" true Sample.file
           (mkResponse 200 "text" Sample.creds)
           (mkError "Request failed with status code 422")).
  - reflexivity.
  - reflexivity.
  - reflexivity.
  - intros; reflexivity.
  - reflexivity.
Defined.

(** ** The storage upload *)

(** X7: a run ends with an error thrown into the host exactly when the file
    was read, the credentials request was answered 200 and [putObject]
    reported this error from the event loop.  Such a run has stopped after
    the [putObject] call, and has reported nothing. *)
Theorem escapes_iff_putObject_fails_from_event_loop
    w source name slug username token wait err :
  let run := upload w source name slug username token wait in
  (outcome run = Escapes err
   <-> exists file rc,
         w_readFileSync w source = inr file
         /\ w_post_credentials w (credentialsUrl username token) = Responds rc
         /\ status rc = 200
         /\ (let cb := w_putObject w
                         {| o_accessKeyId := accessKeyId (data rc);
                            o_secretAccessKey := secretAccessKey (data rc);
                            o_region := "us-east-1";
                            o_sessionToken := sessionToken (data rc) |}
                         {| Body := file; Bucket := bucket (data rc);
                            Key := key (data rc) |} in
             cb_err cb = Some err /\ cb_frame cb = FromEventLoop))
  /\ (outcome run = Escapes err ->
      stages_run (trace run) = [CredentialFetch; StorageUpload]
      /\ reports (trace run) = 0%nat).
Proof.
  cbn zeta.
  assert (Hrun : forall file rc,
             w_readFileSync w source = inr file ->
             w_post_credentials w (credentialsUrl username token) = Responds rc ->
             status rc = 200 ->
             cb_err (w_putObject w
                       {| o_accessKeyId := accessKeyId (data rc);
                          o_secretAccessKey := secretAccessKey (data rc);
                          o_region := "us-east-1";
                          o_sessionToken := sessionToken (data rc) |}
                       {| Body := file; Bucket := bucket (data rc);
                          Key := key (data rc) |}) = Some err ->
             cb_frame (w_putObject w
                         {| o_accessKeyId := accessKeyId (data rc);
                            o_secretAccessKey := secretAccessKey (data rc);
                            o_region := "us-east-1";
                            o_sessionToken := sessionToken (data rc) |}
                         {| Body := file; Bucket := bucket (data rc);
                            Key := key (data rc) |}) = FromEventLoop ->
             upload w source name slug username token wait
             = ([ReadFile source;
                 HttpPost (credentialsUrl username token) None [];
                 PutObject
                   {| o_accessKeyId := accessKeyId (data rc);
                      o_secretAccessKey := secretAccessKey (data rc);
                      o_region := "us-east-1";
                      o_sessionToken := sessionToken (data rc) |}
                   {| Body := file; Bucket := bucket (data rc);
                      Key := key (data rc) |}],
                Escapes err)).
  { intros file rc Hf Hc Hs He Hfr.
    rewrite upload_by_cases, Hf, Hc, Hs. cbn. rewrite He, Hfr. reflexivity. }
  assert (Honly : outcome (upload w source name slug username token wait)
                  = Escapes err ->
                  exists file rc,
                    w_readFileSync w source = inr file
                    /\ w_post_credentials w (credentialsUrl username token)
                       = Responds rc
                    /\ status rc = 200
                    /\ cb_err (w_putObject w
                                 {| o_accessKeyId := accessKeyId (data rc);
                                    o_secretAccessKey := secretAccessKey (data rc);
                                    o_region := "us-east-1";
                                    o_sessionToken := sessionToken (data rc) |}
                                 {| Body := file; Bucket := bucket (data rc);
                                    Key := key (data rc) |}) = Some err
                    /\ cb_frame (w_putObject w
                                   {| o_accessKeyId := accessKeyId (data rc);
                                      o_secretAccessKey := secretAccessKey (data rc);
                                      o_region := "us-east-1";
                                      o_sessionToken := sessionToken (data rc) |}
                                   {| Body := file; Bucket := bucket (data rc);
                                      Key := key (data rc) |}) = FromEventLoop).
  { rewrite upload_by_cases. unfold outcome.
    stage_cases w source username token; cbn [fst snd]; try discriminate.
    + intros E. injection E as ->. exists file, rc.
      apply Z.eqb_eq in H200. rewrite Hcb, Hframe. repeat split; assumption.
    + intros E.
      pose proof (polling_invariant name (ps_tileset (data rs)) username
                    (id (data rs)) token (w_get_status w) wait) as [_ Hend].
      cbn zeta in Hend. rewrite E in Hend. contradiction. }
  split; [split|].
  - intros E. destruct (Honly E) as (file & rc & Hf & Hc & Hs & He & Hfr).
    exists file, rc. repeat split; assumption.
  - intros (file & rc & Hf & Hc & Hs & He & Hfr).
    rewrite (Hrun file rc Hf Hc Hs He Hfr). reflexivity.
  - intros E. destruct (Honly E) as (file & rc & Hf & Hc & Hs & He & Hfr).
    rewrite (Hrun file rc Hf Hc Hs He Hfr). split; reflexivity.
Qed.

Lemma escapes_iff_putObject_fails_from_event_loop_witness :
  let run := Sample.run (Sample.world (Sample.denied FromEventLoop) 200 201 [])
               true in
  outcome run = Escapes (mkError "Access Denied")
  /\ stages_run (trace run) = [CredentialFetch; StorageUpload]
  /\ reports (trace run) = 0%nat.
Proof.
  intros run.
  destruct (escapes_iff_putObject_fails_from_event_loop
              (Sample.world (Sample.denied FromEventLoop) 200 201 [])
              "roads.mbtiles" "Roads" "roads" "user" "tk" true
              (mkError "Access Denied")) as [[_ Hwhen] Hthen].
  assert (E : outcome run = Escapes (mkError "Access Denied")).
  { apply Hwhen. exists Sample.file, (mkResponse 200 "text" Sample.creds).
    repeat split; reflexivity. }
  split; [exact E | exact (Hthen E)].
Defined.

Lemma putObject_error_in_call_witness :
  let run := Sample.run (Sample.world (Sample.denied InCall) 200 201 []) true in
  outcome run = Fulfils (-1)
  /\ stages_run (trace run) = [CredentialFetch; StorageUpload]
  /\ last (trace run) (ReadFile "roads.mbtiles") = ConsoleError "Access Denied".
Proof.
  apply (putObject_error_in_call (Sample.world (Sample.denied InCall) 200 201 [])
           "roads.mbtiles" "Roads" "roads" "user" "tk" true Sample.file
           (mkResponse 200 "text" Sample.creds) (mkError "Access Denied")).
  - reflexivity.
  - reflexivity.
  - reflexivity.
  - intros; split; reflexivity.
Defined.

(** X9: [putObject] is called at most once in a run, with the whole file as
    the body, the bucket, the key and the temporary credentials of the answer
    to the credentials request, in region us-east-1. *)
Theorem putObject_once_with_the_credentials
    w source name slug username token wait :
  let run := upload w source name slug username token wait in
  (putObject_calls (trace run) <= 1)%nat
  /\ forall s3 req,
       In (PutObject s3 req) (trace run) ->
       exists file rc,
         w_readFileSync w source = inr file
         /\ w_post_credentials w (credentialsUrl username token) = Responds rc
         /\ status rc = 200
         /\ req = {| Body := file; Bucket := bucket (data rc);
                     Key := key (data rc) |}
         /\ s3 = {| o_accessKeyId := accessKeyId (data rc);
                    o_secretAccessKey := secretAccessKey (data rc);
                    o_region := "us-east-1";
                    o_sessionToken := sessionToken (data rc) |}.
Proof.
  cbn zeta. rewrite upload_by_cases. unfold trace.
  stage_cases w source username token; cbn [fst];
    try (apply Z.eqb_eq in H200);
    lazymatch goal with
    | _ : (_ =? 201) = true |- _ => idtac
    | |- _ =>
        split; [cbn; lia | intros s3 req H; cbn in H; in_cases H;
                           injection H as <- <-; exists file, rc;
                           repeat split; assumption]
    end.
  split.
  - destruct (polling_no_stage name (ps_tileset (data rs)) username
                (id (data rs)) token (w_get_status w) wait) as [_ Hp].
    cbn zeta in Hp.
    change (ReadFile source :: ?a :: ?b :: ?c :: ?t)
      with ([ReadFile source; a; b; c] ++ t).
    unfold putObject_calls in *. rewrite filter_app, length_app, Hp.
    cbn. lia.
  - intros s3 req H.
    destruct H as [H|[H|[H|[H|H]]]]; try discriminate H.
    + injection H as <- <-. exists file, rc. repeat split; assumption.
    + destruct (polling_invariant name (ps_tileset (data rs)) username
                  (id (data rs)) token (w_get_status w) wait) as [Hev _].
      destruct (Hev _ H) as [E|[E|[text [E|E]]]]; discriminate E.
Qed.

Lemma putObject_once_with_the_credentials_witness :
  let s3 := {| o_accessKeyId := "AKIA"; o_secretAccessKey := "secret";
               o_region := "us-east-1"; o_sessionToken := "session" |} in
  let req := {| Body := Sample.file; Bucket := "tilestream-tilesets-production";
                Key := "_pending/abc/user" |} in
  In (PutObject s3 req) (trace (Sample.run (Sample.happy []) false))
  /\ exists file rc,
       w_readFileSync (Sample.happy []) "roads.mbtiles" = inr file
       /\ w_post_credentials (Sample.happy []) (credentialsUrl "user" "tk")
          = Responds rc
       /\ Body req = file /\ Bucket req = bucket (data rc).
Proof.
  intros s3 req.
  assert (Hin : In (PutObject s3 req)
                   (trace (upload (Sample.happy []) "roads.mbtiles" "Roads"
                             "roads" "user" "tk" false))).
  { cbn. right. right. left. reflexivity. }
  split; [exact Hin|].
  destruct (proj2 (putObject_once_with_the_credentials (Sample.happy [])
                     "roads.mbtiles" "Roads" "roads" "user" "tk" false)
              s3 req Hin) as (file & rc & Hf & Hc & _ & Hreq & _).
  exists file, rc. rewrite Hreq. repeat split; assumption.
Defined.

(** ** The last turn of a polling that fails *)

Lemma poll_not_200 name tileset username id token r rest p :
  in_progress p = true -> status r <> 200 ->
  try_catch (poll name tileset username id token (Responds r :: rest) p) handler
  = ([HttpGet (uploadStatusUrl username id token) json_headers;
      ConsoleError
        (if validateStatus (status r)
         then ("Could processing status: " ++ show (status r) ++ ": "
                 ++ statusText r ++ ".")%string
         else ("Request failed with status code " ++ show (status r))%string)],
     Fulfils (-1)).
Proof.
  intros Hp Hs. apply Z.eqb_neq in Hs. cbn [poll]. rewrite Hp.
  unfold poll_once. rewrite getUploadStatus_answered, Hs. reflexivity.
Qed.

Lemma poll_rejected name tileset username id token e rest p :
  in_progress p = true ->
  try_catch (poll name tileset username id token (Fails e :: rest) p) handler
  = ([HttpGet (uploadStatusUrl username id token) json_headers;
      ConsoleError (message e)],
     Fulfils (-1)).
Proof.
  intros Hp. cbn [poll]. rewrite Hp.
  unfold poll_once. rewrite getUploadStatus_rejected. reflexivity.
Qed.

Lemma poll_job_error name tileset username id token r rest p c s :
  in_progress p = true -> status r = 200 ->
  error (data r) = Some (String c s) ->
  try_catch (poll name tileset username id token (Responds r :: rest) p) handler
  = ([HttpGet (uploadStatusUrl username id token) json_headers;
      SpinnerFail ("Error occurred while processing " ++ name ++ " ("
                     ++ tileset ++ "): " ++ String c s ++ ".")%string],
     Fulfils (-1)).
Proof.
  intros Hp Hs He. cbn [poll]. rewrite Hp.
  unfold poll_once. rewrite getUploadStatus_answered, Hs. cbn.
  rewrite He. reflexivity.
Qed.

Lemma last_of_run (t1 t2 : list event) (q x d : event) :
  last (t1 ++ t2 ++ [q; x]) d = x.
Proof.
  change [q; x] with ([q] ++ [x]). rewrite !app_assoc. apply last_last.
Qed.

(** ** Polling *)

(** X10: the loop has no bound.  When the stages succeed and every answer the
    status endpoint gives keeps the loop going, [upload] queries once more
    than it was answered, after a delay of 1000 ms for each answer, and does
    not return. *)
Theorem polling_never_gives_up w source name slug username token creds job :
  reaches_polling w source name slug username token creds job ->
  forallb keeps_polling (w_get_status w) = true ->
  let run := upload w source name slug username token true in
  outcome run = Hangs
  /\ status_queries (trace run) = S (length (w_get_status w))
  /\ delays (trace run) = length (w_get_status w).
Proof.
  intros Hr Hall run.
  destruct (upload_polls w source name slug username token creds job
              (w_get_status w) [] Hr (eq_sym (app_nil_r _)) Hall)
    as (file & p & Hp & E).
  cbn zeta in E. rewrite (poll_unanswered _ _ _ _ _ p Hp) in E.
  subst run. rewrite E. unfold outcome, trace. cbn [fst snd try_catch].
  split; [reflexivity|]. split.
  - rewrite status_queries_run. cbn. lia.
  - rewrite !delays_app, delays_turns. cbn. lia.
Qed.

Lemma polling_never_gives_up_witness :
  let w := Sample.happy [Sample.ok None (Some (Finite 0.1));
                         Sample.ok None (Some (Finite 0.1));
                         Sample.ok None (Some (Finite 0.99));
                         Sample.ok None (Some (Finite 0))] in
  outcome (Sample.run w true) = Hangs
  /\ status_queries (trace (Sample.run w true)) = 5%nat
  /\ delays (trace (Sample.run w true)) = 4%nat.
Proof.
  intros w.
  apply (polling_never_gives_up w "roads.mbtiles" "Roads" "roads" "user" "tk"
           Sample.creds (Sample.job None (Some (Finite 0)) false)).
  - apply happy_reaches_polling.
  - reflexivity.
Defined.

(** X11: a status query answered with a status other than 200 ends the run
    in failure, whatever the answer says about the job: [upload] returns -1,
    does not query again, and its last interaction is one report.  For a
    status outside 200-299 the report is the message of the rejection of
    axios, "Request failed with status code " and the status; for a status
    from 201 to 299 it is "Could processing status: ", the status, ": ", the
    status text and a full stop. *)
Theorem status_query_not_200_fails
    w source name slug username token creds job pre r rest :
  reaches_polling w source name slug username token creds job ->
  w_get_status w = pre ++ Responds r :: rest ->
  forallb keeps_polling pre = true ->
  status r <> 200 ->
  let run := upload w source name slug username token true in
  outcome run = Fulfils (-1)
  /\ status_queries (trace run) = S (length pre)
  /\ last (trace run) (ReadFile source)
     = ConsoleError
         (if (200 <=? status r) && (status r <? 300)
          then ("Could processing status: " ++ show (status r) ++ ": "
                  ++ statusText r ++ ".")%string
          else ("Request failed with status code " ++ show (status r))%string).
Proof.
  intros Hr Hw Hpre Hs run.
  destruct (upload_polls _ _ _ _ _ _ _ _ _ _ Hr Hw Hpre) as (file & p & Hp & E).
  cbn zeta in E. rewrite (poll_not_200 _ _ _ _ _ r rest p Hp Hs) in E.
  subst run. rewrite E. unfold outcome, trace. cbn [fst snd].
  split; [reflexivity|]. split.
  - rewrite status_queries_run. cbn. lia.
  - apply last_of_run.
Qed.

Lemma status_query_not_200_fails_witness :
  let done := Sample.job None (Some (Finite 1)) true in
  let gone :=
    Sample.run (Sample.happy [Sample.ok None (Some (Finite 0.5));
                              Responds (mkResponse 404 "Not Found" done);
                              Sample.ok None (Some (Finite 1))]) true in
  let accepted :=
    Sample.run (Sample.happy [Sample.ok None (Some (Finite 0.5));
                              Responds (mkResponse 202 "Accepted" done);
                              Sample.ok None (Some (Finite 1))]) true in
  (outcome gone = Fulfils (-1)
   /\ status_queries (trace gone) = 2%nat
   /\ last (trace gone) (ReadFile "roads.mbtiles")
      = ConsoleError "Request failed with status code 404")
  /\ (outcome accepted = Fulfils (-1)
      /\ status_queries (trace accepted) = 2%nat
      /\ last (trace accepted) (ReadFile "roads.mbtiles")
         = ConsoleError "Could processing status: 202: Accepted.").
Proof.
  intros done gone accepted. split.
  - apply (status_query_not_200_fails
             (Sample.happy [Sample.ok None (Some (Finite 0.5));
                            Responds (mkResponse 404 "Not Found" done);
                            Sample.ok None (Some (Finite 1))])
             "roads.mbtiles" "Roads" "roads" "user" "tk"
             Sample.creds (Sample.job None (Some (Finite 0)) false)
             [Sample.ok None (Some (Finite 0.5))]
             (mkResponse 404 "Not Found" done)
             [Sample.ok None (Some (Finite 1))]).
    + apply happy_reaches_polling.
    + reflexivity.
    + reflexivity.
    + cbn. lia.
  - apply (status_query_not_200_fails
             (Sample.happy [Sample.ok None (Some (Finite 0.5));
                            Responds (mkResponse 202 "Accepted" done);
                            Sample.ok None (Some (Finite 1))])
             "roads.mbtiles" "Roads" "roads" "user" "tk"
             Sample.creds (Sample.job None (Some (Finite 0)) false)
             [Sample.ok None (Some (Finite 0.5))]
             (mkResponse 202 "Accepted" done)
             [Sample.ok None (Some (Finite 1))]).
    + apply happy_reaches_polling.
    + reflexivity.
    + reflexivity.
    + cbn. lia.
Defined.

(** X12: a status query that [axios] rejects ends the run in failure:
    [upload] reports the message of the rejection, returns -1 and does not
    query again. *)
Theorem status_query_rejected_fails
    w source name slug username token creds job pre e rest :
  reaches_polling w source name slug username token creds job ->
  w_get_status w = pre ++ Fails e :: rest ->
  forallb keeps_polling pre = true ->
  let run := upload w source name slug username token true in
  outcome run = Fulfils (-1)
  /\ status_queries (trace run) = S (length pre)
  /\ last (trace run) (ReadFile source) = ConsoleError (message e).
Proof.
  intros Hr Hw Hpre run.
  destruct (upload_polls _ _ _ _ _ _ _ _ _ _ Hr Hw Hpre) as (file & p & Hp & E).
  cbn zeta in E. rewrite (poll_rejected _ _ _ _ _ e rest p Hp) in E.
  subst run. rewrite E. unfold outcome, trace. cbn [fst snd].
  split; [reflexivity|]. split.
  - rewrite status_queries_run. cbn. lia.
  - apply last_of_run.
Qed.

Lemma status_query_rejected_fails_witness :
  let w := Sample.happy [Sample.ok None (Some (Finite 0.5));
                         Fails (mkError "timeout of 0ms exceeded");
                         Sample.ok None (Some (Finite 1))] in
  let run := Sample.run w true in
  outcome run = Fulfils (-1)
  /\ status_queries (trace run) = 2%nat
  /\ last (trace run) (ReadFile "roads.mbtiles")
     = ConsoleError "timeout of 0ms exceeded".
Proof.
  intros w run.
  apply (status_query_rejected_fails w "roads.mbtiles" "Roads" "roads" "user" "tk"
           Sample.creds (Sample.job None (Some (Finite 0)) false)
           [Sample.ok None (Some (Finite 0.5))]
           (mkError "timeout of 0ms exceeded")
           [Sample.ok None (Some (Finite 1))]).
  - apply happy_reaches_polling.
  - reflexivity.
  - reflexivity.
Defined.

(** X13: an error of the job (an answer 200 with a non-empty [error]) is
    reported through the spinner, with the name given to [upload], the
    tileset of the answer to the processing-start request and the error of
    the job; [console.error] is not called in such a run. *)
Theorem job_error_is_reported_by_the_spinner
    w source name slug username token creds job pre r rest c s :
  reaches_polling w source name slug username token creds job ->
  w_get_status w = pre ++ Responds r :: rest ->
  forallb keeps_polling pre = true ->
  status r = 200 ->
  error (data r) = Some (String c s) ->
  let run := upload w source name slug username token true in
  last (trace run) (ReadFile source)
  = SpinnerFail ("Error occurred while processing " ++ name ++ " ("
                   ++ ps_tileset job ++ "): " ++ String c s ++ ".")%string
  /\ forall text, ~ In (ConsoleError text) (trace run).
Proof.
  intros Hr Hw Hpre Hs He run.
  destruct (upload_polls _ _ _ _ _ _ _ _ _ _ Hr Hw Hpre) as (file & p & Hp & E).
  cbn zeta in E. rewrite (poll_job_error _ _ _ _ _ r rest p c s Hp Hs He) in E.
  subst run. rewrite E. unfold outcome, trace. cbn [fst snd]. split.
  - apply last_of_run.
  - intros text H. apply in_app_or in H as [H|H]; [cbn in H; in_cases H|].
    apply in_app_or in H as [H|H]; [|cbn in H; in_cases H].
    unfold turns in H. apply in_flat_map in H as (a & _ & H).
    cbn in H. in_cases H.
Qed.

Lemma job_error_is_reported_by_the_spinner_witness :
  let w := Sample.happy [Sample.ok None (Some (Finite 0.5));
                         Sample.ok (Some "bad file") (Some (Finite 0.5))] in
  last (trace (Sample.run w true)) (ReadFile "roads.mbtiles")
  = SpinnerFail "Error occurred while processing Roads (user.roads): bad file.".
Proof.
  intros w.
  apply (job_error_is_reported_by_the_spinner w "roads.mbtiles" "Roads" "roads"
           "user" "tk" Sample.creds (Sample.job None (Some (Finite 0)) false)
           [Sample.ok None (Some (Finite 0.5))]
           (mkResponse 200 "OK" (Sample.job (Some "bad file") (Some (Finite 0.5)) false))
           [] "b"%char "ad file").
  - apply happy_reaches_polling.
  - reflexivity.
  - reflexivity.
  - reflexivity.
  - reflexivity.
Defined.

(** X14: status queries are sent with [--wait] only, and every one of them
    is a GET, with the JSON headers, of the status URL built from the
    [username], the [token] and the [id] of the job in the answer to the
    processing-start request. *)
Theorem status_queries_use_the_job_id
    w source name slug username token wait target hs :
  In (HttpGet target hs) (trace (upload w source name slug username token wait)) ->
  wait = true
  /\ exists rc rs,
       w_post_credentials w (credentialsUrl username token) = Responds rc
       /\ w_post_upload w (uploadUrl username token)
            (upload_request username slug name (bucket (data rc)) (key (data rc)))
            json_headers = Responds rs
       /\ status rs = 201
       /\ target = uploadStatusUrl username (id (data rs)) token
       /\ hs = json_headers.
Proof.
  rewrite upload_by_cases. unfold trace.
  stage_cases w source username token; cbn [fst]; intros H;
    lazymatch goal with
    | _ : (_ =? 201) = true |- _ => idtac
    | |- _ => cbn in H; in_cases H
    end.
  destruct H as [H|[H|[H|[H|H]]]]; try discriminate H.
  destruct wait; [|destruct H]. split; [reflexivity|].
  destruct (polling_invariant name (ps_tileset (data rs)) username
              (id (data rs)) token (w_get_status w) true) as [Hev _].
  destruct (Hev _ H) as [E|[E|[text [E|E]]]]; try discriminate E.
  injection E as -> ->. apply Z.eqb_eq in H201.
  exists rc, rs. repeat split; assumption.
Qed.

Lemma status_queries_use_the_job_id_witness :
  In (HttpGet "https://api.mapbox.com/uploads/v1/user/cj1?access_token=tk"
        json_headers)
     (trace (Sample.run (Sample.happy [Sample.ok None (Some (Finite 1))]) true))
  /\ exists rs,
       w_post_upload (Sample.happy [Sample.ok None (Some (Finite 1))])
         (uploadUrl "user" "tk")
         (upload_request "user" "roads" "Roads" (bucket Sample.creds)
            (key Sample.creds)) json_headers = Responds rs
       /\ "https://api.mapbox.com/uploads/v1/user/cj1?access_token=tk"
          = uploadStatusUrl "user" (id (data rs)) "tk".
Proof.
  assert (Hin : In (HttpGet "https://api.mapbox.com/uploads/v1/user/cj1?access_token=tk"
                      json_headers)
                   (trace (upload (Sample.happy [Sample.ok None (Some (Finite 1))])
                             "roads.mbtiles" "Roads" "roads" "user" "tk" true))).
  { cbn. right. right. right. right. left. reflexivity. }
  split; [exact Hin|].
  destruct (status_queries_use_the_job_id _ _ _ _ _ _ _ _ _ Hin)
    as (_ & rc & rs & Hc & Hj & _ & Ht & _).
  injection Hc as <-. exists rs. split; [exact Hj | exact Ht].
Defined.

(** X15: the run stops at the first answer that does not keep the loop
    going: the answers the status endpoint would give after it change
    nothing, neither the interactions nor the outcome. *)
Theorem answers_after_the_last_are_ignored
    w source name slug username token wait pre a rest :
  forallb keeps_polling pre = true ->
  keeps_polling a = false ->
  upload (with_status w (pre ++ a :: rest)) source name slug username token wait
  = upload (with_status w (pre ++ [a])) source name slug username token wait.
Proof.
  intros Hpre Ha. rewrite !upload_by_cases.
  cbn [with_status w_readFileSync w_post_credentials w_putObject w_post_upload
       w_get_status].
  stage_cases w source username token; try reflexivity.
  destruct wait; [|reflexivity].
  rewrite (poll_ignores_rest _ _ _ _ _ pre a rest _ Hpre Ha). reflexivity.
Qed.

Lemma answers_after_the_last_are_ignored_witness :
  Sample.run (Sample.happy [Sample.ok None (Some (Finite 0.3));
                            Sample.ok None (Some (Finite 1));
                            Sample.ok (Some "bad file") (Some (Finite 0))]) true
  = Sample.run (Sample.happy [Sample.ok None (Some (Finite 0.3));
                              Sample.ok None (Some (Finite 1))]) true.
Proof.
  apply (answers_after_the_last_are_ignored (Sample.happy []) "roads.mbtiles"
           "Roads" "roads" "user" "tk" true
           [Sample.ok None (Some (Finite 0.3))]
           (Sample.ok None (Some (Finite 1)))
           [Sample.ok (Some "bad file") (Some (Finite 0))]);
    reflexivity.
Defined.

(** ** What every run keeps *)

(** X16: [upload] never throws: whatever the outside answers, the promise of
    [upload] is not rejected, and when [upload] returns, it returns 0 or
    -1. *)
Theorem upload_returns_0_or_minus_1 w source name slug username token wait :
  let run := upload w source name slug username token wait in
  (forall e, outcome run <> Rejects e)
  /\ (forall a, outcome run = Fulfils a -> a = 0 \/ a = -1).
Proof.
  cbn zeta.
  destruct (upload_invariant w source name slug username token wait) as [_ H].
  cbn zeta in H. split.
  - intros e E. rewrite E in H. exact H.
  - intros a E. rewrite E in H. destruct H as [[-> _]|[-> _]]; auto.
Qed.

Lemma upload_returns_0_or_minus_1_witness :
  outcome (Sample.run Failing.no_start true) = Fulfils (-1)
  /\ (-1 = 0 \/ -1 = -1).
Proof.
  split; [reflexivity|].
  apply (proj2 (upload_returns_0_or_minus_1 Failing.no_start "roads.mbtiles"
                  "Roads" "roads" "user" "tk" true) (-1)).
  reflexivity.
Defined.

(** X17: a run that returns -1 has reported exactly one failure (through
    [console.error] or the spinner); a run that returns 0 has reported
    none. *)
Theorem failure_is_reported_once w source name slug username token wait :
  let run := upload w source name slug username token wait in
  (outcome run = Fulfils (-1) -> reports (trace run) = 1%nat)
  /\ (outcome run = Fulfils 0 -> reports (trace run) = 0%nat).
Proof.
  cbn zeta.
  destruct (upload_invariant w source name slug username token wait) as [_ H].
  cbn zeta in H. split; intros E; rewrite E in H.
  - destruct H as [[H _]|(_ & _ & H)]; [discriminate H | exact H].
  - destruct H as [(_ & _ & H & _)|[H _]]; [exact H | discriminate H].
Qed.

Lemma failure_is_reported_once_witness :
  reports (trace (Sample.run
                    (Sample.happy [Sample.ok None (Some (Finite 0.5));
                                   Sample.ok (Some "bad file") None]) true))
  = 1%nat.
Proof.
  apply (proj1 (failure_is_reported_once
                  (Sample.happy [Sample.ok None (Some (Finite 0.5));
                                 Sample.ok (Some "bad file") None])
                  "roads.mbtiles" "Roads" "roads" "user" "tk" true)).
  reflexivity.
Defined.

(** X18: every delay of a run is of 1000 ms and there are never more delays
    than status queries.  A run that returns 0 has waited after each of its
    queries, the last one too, and with [--wait] it has queried at least
    once. *)
Theorem success_waits_after_every_query
    w source name slug username token wait :
  let run := upload w source name slug username token wait in
  (forall ms, In (Delay ms) (trace run) -> ms = 1000)
  /\ (delays (trace run) <= status_queries (trace run))%nat
  /\ (outcome run = Fulfils 0 ->
      delays (trace run) = status_queries (trace run)
      /\ (wait = true -> (1 <= status_queries (trace run))%nat)).
Proof.
  cbn zeta.
  destruct (upload_invariant w source name slug username token wait) as [Hd H].
  cbn zeta in Hd, H. split; [exact Hd|]. split.
  - destruct (outcome _) as [a|e|e|]; try contradiction.
    + destruct H as [(_ & H & _)|(_ & H & _)]; lia.
    + destruct H as (-> & -> & _). lia.
    + destruct H as [H _]. lia.
  - intros E. rewrite E in H.
    destruct H as [(_ & H1 & _ & H2)|[H _]]; [auto | discriminate H].
Qed.

Lemma success_waits_after_every_query_witness :
  let run := Sample.run (Sample.happy [Sample.ok None (Some (Finite 1))]) true in
  delays (trace run) = status_queries (trace run)
  /\ (1 <= status_queries (trace run))%nat.
Proof.
  intros run.
  destruct (success_waits_after_every_query
              (Sample.happy [Sample.ok None (Some (Finite 1))])
              "roads.mbtiles" "Roads" "roads" "user" "tk" true) as (_ & _ & H).
  destruct (H eq_refl) as [H1 H2]. split; [exact H1 | exact (H2 eq_refl)].
Defined.

(** ** The URLs *)

Lemma string_append_assoc (a b c : string) :
  ((a ++ b) ++ c)%string = (a ++ (b ++ c))%string.
Proof. induction a as [|x a IH]; cbn; [reflexivity | now rewrite IH]. Qed.

(** X19: the URL builders insert their arguments as they are.  The status
    URL of the job whose id is "credentials" is the credentials URL, and the
    processing-start URL of a user name that holds a slash is the status URL
    of the part before the slash for the job named after it. *)
Theorem url_arguments_are_not_escaped (username token uploadId : string) :
  uploadStatusUrl username "credentials" token = credentialsUrl username token
  /\ uploadUrl (username ++ "/" ++ uploadId)%string token
     = uploadStatusUrl username uploadId token.
Proof.
  unfold uploadStatusUrl, credentialsUrl, uploadUrl. split.
  - reflexivity.
  - rewrite !string_append_assoc. reflexivity.
Qed.
